(** * my_honeywell: session, request executor and polling coordinator

    A shallow embedding of

    - [custom_components/my_honeywell/aiosomecomfort/__init__.py]
      (class [AIOSomeComfort]: [login], [ensure_authenticated],
      [_request_json], [_request_json_with_retry], [_get_locations]) and
    - [custom_components/my_honeywell/__init__.py]
      (class [MyHoneywellCoordinator]: [_async_update_data]).

    Python objects are records, coroutines are functions in a state and
    exception monad over the client object, and the aiohttp session is an
    oracle giving the outcome of the n-th transport call.  Time is the
    reading of [datetime.now(timezone.utc)] in microseconds; it advances
    with every transport call (by the latency the oracle reports) and with
    every [asyncio.sleep]. *)

From Stdlib Require Import ZArith List String Bool Lia PrimFloat.
Import ListNotations.
Local Open Scope string_scope.
Local Open Scope Z_scope.

(** ** Constants of [aiosomecomfort/__init__.py] *)

Definition AUTH_COOKIE : string := ".ASPXAUTH_TRUEHOME".
Definition MIN_LOGIN_TIME : Z := 10 * 60 * 1000000.   (* timedelta(minutes=10) *)
Definition MAX_LOGIN_ATTEMPTS : Z := 3.
Definition DEFAULT_RETRY_COUNT : Z := 3.
Definition RETRY_BACKOFF_BASE : Z := 2.               (* seconds *)

(** ** Exceptions *)

(** The exception classes the two modules raise or catch.  The first ten
    are the classes of [aiosomecomfort]; every one of them derives
    directly from [SomeComfortError]. *)
Inductive kind : Type :=
| SomeComfortError
| ConnectionTimeout
| ConnectionError
| AuthError
| APIError
| APIRateLimited
| SessionTimedOut
| ServiceUnavailable
| UnexpectedResponse
| UnauthorizedError
| ClientError        (* aiohttp.ClientError and its subclasses *)
| TimeoutError       (* asyncio.TimeoutError: not an aiohttp.ClientError *)
| UpdateFailed       (* homeassistant.helpers.update_coordinator *)
| OtherException.    (* any other subclass of Exception *)

Definition kind_eqb (a b : kind) : bool :=
  match a, b with
  | SomeComfortError, SomeComfortError | ConnectionTimeout, ConnectionTimeout
  | ConnectionError, ConnectionError | AuthError, AuthError
  | APIError, APIError | APIRateLimited, APIRateLimited
  | SessionTimedOut, SessionTimedOut | ServiceUnavailable, ServiceUnavailable
  | UnexpectedResponse, UnexpectedResponse
  | UnauthorizedError, UnauthorizedError | ClientError, ClientError
  | TimeoutError, TimeoutError | UpdateFailed, UpdateFailed
  | OtherException, OtherException => true
  | _, _ => false
  end.

(** [isinstance(ex, SomeComfortError)] *)
Definition is_SomeComfortError (k : kind) : bool :=
  match k with
  | ClientError | TimeoutError | UpdateFailed | OtherException => false
  | _ => true
  end.

(** The text an exception carries, one constructor per message of the
    source. *)
Inductive message : Type :=
| MTransport                               (* raised by aiohttp itself *)
| MConnectionTimeout                       (* "Connection Timeout" *)
| MRateLimit (wait : Z)                    (* "Rate limit on login: Waiting .." *)
| MLoginFailed                             (* "Login as .. failed" *)
| MConnectionStatus (st : Z)               (* "Connection error {status}" *)
| MNullCookie (st : Z)                     (* "Null cookie error {status}" *)
| MVerificationFailed (st : Z)             (* "Login verification failed .." *)
| MSessionExpired                          (* "401 Error (session expired)" *)
| MForbidden                               (* "403 Error (forbidden)" *)
| MServiceUnavailable (st : Z)             (* "Service Unavailable {status}" *)
| MApiReturned (st : Z)                    (* "API returned {status}, {req}" *)
| MRetriesFailed                           (* "Request failed after all retries" *)
| MReauthFailed (m : message)              (* "Re-authentication failed: .." *)
| MUnavailableAfter (n : Z) (m : message)  (* "Service unavailable after n attempts: .." *)
| MConnectionAfter (n : Z) (m : message)   (* "Connection error after n attempts: .." *)
| MUnexpected (m : message)                (* "Unexpected error: .." *)
| MOther.

Record exn : Type := Exc { kind_of : kind; msg_of : message }.

(** ** Transport *)

#[local] Unset Elimination Schemes.
Inductive json_value : Type :=
| JNull
| JBool (b : bool)
| JNum (n : Z)
| JFloat (f : float)
| JStr (s : string)
| JList (l : list json_value)
| JObj (l : list (string * json_value)).
#[local] Set Elimination Schemes.

Inductive failure : Type :=
| AiohttpError       (* an aiohttp.ClientError *)
| AsyncioTimeout.    (* asyncio.TimeoutError *)

(** How [await resp.json()] ends: with the decoded body, with the
    [json.JSONDecodeError] of a body that does not decode, or with the
    failure of the read of the body. *)
Inductive json_body : Type :=
| Parsed (j : json_value)
| Malformed
| Unread (f : failure).

(** What the code reads of an [aiohttp.ClientResponse].  [json] is how
    [await resp.json()] ends.  [auth_cookie] is the value of
    [resp.cookies[AUTH_COOKIE]] when the cookie is present. *)
Record response : Type := {
  status : Z;
  content_type : string;
  history : nat;                    (* len(resp.history) *)
  auth_cookie : option string;
  json : json_body
}.

Inductive reply : Type :=
| Responds (r : response)
| Fails (f : failure).

(** One transport call: how long it took (microseconds) and how it ended. *)
Record outcome : Type := { elapsed : nat; result_of : reply }.

(** Which statement of the client issued a transport call. *)
Inductive origin : Type :=
| LoginPost                      (* login: self._session.post(url, ..) *)
| LoginVerify                    (* login: self._session.get(/portal) *)
| ApiRequest (method : string)   (* _request_json: getattr(session, method) *)
| LocationsPage (page : Z).      (* _get_locations: self._session.post *)

(** ** The client object and its surroundings *)

Record client : Type := {
  (* attributes of AIOSomeComfort *)
  credentials : string * string;           (* _username, _password *)
  _retry_count : Z;
  header_content_type : option string;     (* self._headers.get("Content-Type") *)
  _null_cookie_count : Z;
  _next_login : Z;
  _counter : Z;
  _is_authenticated : bool;
  (* the aiohttp session and the clock *)
  cookie_jar : option string;              (* AUTH_COOKIE put there by update_cookies *)
  now : Z;
  log : list (origin * outcome);           (* transport calls, newest first *)
  sleeps : list Z                          (* asyncio.sleep arguments, newest first *)
}.

(** [AIOSomeComfort.__init__] *)
Definition new_client (username password : string) (retry_count : Z) (t0 : Z)
  : client :=
  {| credentials := (username, password);
     _retry_count := retry_count;
     header_content_type := None;
     _null_cookie_count := 0;
     _next_login := t0;
     _counter := 1700000000000;
     _is_authenticated := false;
     cookie_jar := None;
     now := t0;
     log := [];
     sleeps := [] |}.

Definition set_header (h : string) (s : client) : client :=
  {| credentials := credentials s; _retry_count := _retry_count s;
     header_content_type := Some h;
     _null_cookie_count := _null_cookie_count s; _next_login := _next_login s;
     _counter := _counter s; _is_authenticated := _is_authenticated s;
     cookie_jar := cookie_jar s; now := now s; log := log s;
     sleeps := sleeps s |}.

Definition set_null_cookie_count (n : Z) (s : client) : client :=
  {| credentials := credentials s; _retry_count := _retry_count s;
     header_content_type := header_content_type s;
     _null_cookie_count := n; _next_login := _next_login s;
     _counter := _counter s; _is_authenticated := _is_authenticated s;
     cookie_jar := cookie_jar s; now := now s; log := log s;
     sleeps := sleeps s |}.

Definition set_next_login (t : Z) (s : client) : client :=
  {| credentials := credentials s; _retry_count := _retry_count s;
     header_content_type := header_content_type s;
     _null_cookie_count := _null_cookie_count s; _next_login := t;
     _counter := _counter s; _is_authenticated := _is_authenticated s;
     cookie_jar := cookie_jar s; now := now s; log := log s;
     sleeps := sleeps s |}.

Definition set_counter (n : Z) (s : client) : client :=
  {| credentials := credentials s; _retry_count := _retry_count s;
     header_content_type := header_content_type s;
     _null_cookie_count := _null_cookie_count s; _next_login := _next_login s;
     _counter := n; _is_authenticated := _is_authenticated s;
     cookie_jar := cookie_jar s; now := now s; log := log s;
     sleeps := sleeps s |}.

Definition set_authenticated (b : bool) (s : client) : client :=
  {| credentials := credentials s; _retry_count := _retry_count s;
     header_content_type := header_content_type s;
     _null_cookie_count := _null_cookie_count s; _next_login := _next_login s;
     _counter := _counter s; _is_authenticated := b;
     cookie_jar := cookie_jar s; now := now s; log := log s;
     sleeps := sleeps s |}.

Definition set_cookie_jar (c : option string) (s : client) : client :=
  {| credentials := credentials s; _retry_count := _retry_count s;
     header_content_type := header_content_type s;
     _null_cookie_count := _null_cookie_count s; _next_login := _next_login s;
     _counter := _counter s; _is_authenticated := _is_authenticated s;
     cookie_jar := c; now := now s; log := log s;
     sleeps := sleeps s |}.

(** The clock moves on by [d] microseconds with nothing else happening. *)
Definition advance (d : Z) (s : client) : client :=
  {| credentials := credentials s; _retry_count := _retry_count s;
     header_content_type := header_content_type s;
     _null_cookie_count := _null_cookie_count s; _next_login := _next_login s;
     _counter := _counter s; _is_authenticated := _is_authenticated s;
     cookie_jar := cookie_jar s; now := now s + d; log := log s;
     sleeps := sleeps s |}.

Definition record_call (o : origin) (out : outcome) (s : client) : client :=
  {| credentials := credentials s; _retry_count := _retry_count s;
     header_content_type := header_content_type s;
     _null_cookie_count := _null_cookie_count s; _next_login := _next_login s;
     _counter := _counter s; _is_authenticated := _is_authenticated s;
     cookie_jar := cookie_jar s; now := now s + Z.of_nat (elapsed out);
     log := (o, out) :: log s;
     sleeps := sleeps s |}.

Definition record_sleep (seconds : Z) (s : client) : client :=
  {| credentials := credentials s; _retry_count := _retry_count s;
     header_content_type := header_content_type s;
     _null_cookie_count := _null_cookie_count s; _next_login := _next_login s;
     _counter := _counter s; _is_authenticated := _is_authenticated s;
     cookie_jar := cookie_jar s; now := now s + seconds * 1000000;
     log := log s;
     sleeps := seconds :: sleeps s |}.

(** Number of transport calls made so far. *)
Definition calls (s : client) : nat := List.length (log s).

Definition is_api_request (c : origin * outcome) : bool :=
  match fst c with ApiRequest _ => true | _ => false end.

(** Number of transport calls issued by [_request_json]. *)
Definition requests (s : client) : nat :=
  List.length (filter is_api_request (log s)).

Definition unauthorized_status (st : Z) : bool := (st =? 401) || (st =? 403).

(** The last transport call came back with status 401 or 403. *)
Definition last_call_unauthorized (s : client) : bool :=
  match log s with
  | (_, out) :: _ =>
      match result_of out with
      | Responds r => unauthorized_status (status r)
      | Fails _ => false
      end
  | [] => false
  end.

(** ** Coroutines: state and exceptions *)

Inductive result (A : Type) : Type :=
| Ok (a : A)
| Raise (e : exn).
Arguments Ok {A} a.
Arguments Raise {A} e.

(** A coroutine over an object of type [S]: it returns or raises, and
    leaves the object in a new state either way. *)
Definition Co (S A : Type) : Type := S -> result A * S.

Definition ret {S A} (a : A) : Co S A := fun s => (Ok a, s).

Definition bind {S A B} (c : Co S A) (k : A -> Co S B) : Co S B :=
  fun s => match c s with
           | (Ok a, s') => k a s'
           | (Raise e, s') => (Raise e, s')
           end.

Definition raise {S A} (k : kind) (m : message) : Co S A :=
  fun s => (Raise (Exc k m), s).

Definition reraise {S A} (e : exn) : Co S A := fun s => (Raise e, s).

Definition get {S} : Co S S := fun s => (Ok s, s).

Definition modify {S} (f : S -> S) : Co S unit := fun s => (Ok tt, f s).

(** Runs [c] and hands its outcome, returned or raised, to the code after
    it: the body of a [try] whose [except] clauses follow. *)
Definition try_ {S A} (c : Co S A) : Co S (result A) :=
  fun s => let (r, s') := c s in (Ok r, s').

Declare Scope coroutine_scope.
Delimit Scope coroutine_scope with co.
Notation "x <- c ;; k" := (bind c (fun x => k))
  (at level 61, c at next level, right associativity) : coroutine_scope.
Notation "c ;; k" := (bind c (fun _ => k))
  (at level 61, right associativity) : coroutine_scope.
Local Open Scope coroutine_scope.

(** Coroutines of the client. *)
Definition M : Type -> Type := Co client.

(** [_convert_errors]: an [aiohttp.ClientError] leaving the wrapped
    coroutine becomes [ConnectionError("Connection Timeout")]. *)
Definition _convert_errors {A} (fn : M A) : M A :=
  r <- try_ fn ;;
  match r with
  | Ok a => ret a
  | Raise e =>
      match kind_of e with
      | ClientError => raise ConnectionError MConnectionTimeout
      | _ => reraise e
      end
  end.

Section Client.

(** The network: the outcome of the n-th transport call of the session. *)
Variable net : nat -> outcome.

(** [await self._session.post(..)] / [.get(..)] *)
Definition transport (o : origin) : M response :=
  fun s =>
    let out := net (calls s) in
    let s' := record_call o out s in
    match result_of out with
    | Responds r => (Ok r, s')
    | Fails AiohttpError => (Raise (Exc ClientError MTransport), s')
    | Fails AsyncioTimeout => (Raise (Exc TimeoutError MTransport), s')
    end.

(** [asyncio.sleep(seconds)] *)
Definition sleep (seconds : Z) : M unit := modify (record_sleep seconds).

(** The "malformed cookie" block: when the response carries the auth
    cookie it is put into the session's cookie jar. *)
Definition update_cookies (resp : response) : M unit :=
  match auth_cookie resp with
  | Some v => modify (set_cookie_jar (Some v))
  | None => ret tt
  end.

(** [AIOSomeComfort._set_null_count] *)
Definition _set_null_count : M unit :=
  modify (fun s => set_null_cookie_count (_null_cookie_count s + 1) s) ;;
  modify (set_authenticated false) ;;
  s <- get ;;
  if _null_cookie_count s >=? MAX_LOGIN_ATTEMPTS
  then modify (set_next_login (now s + MIN_LOGIN_TIME))
  else ret tt.

Definition empty_cookie (resp : response) : bool :=
  match auth_cookie resp with
  | Some v => String.eqb v ""
  | None => false
  end.

(** [AIOSomeComfort.login], with its [@_convert_errors] decorator. *)
Definition login : M unit :=
  _convert_errors (
    modify (set_header "application/x-www-form-urlencoded") ;;
    s <- get ;;
    if _next_login s >? now s
    then raise APIRateLimited (MRateLimit (_next_login s - now s))
    else
      resp <- transport LoginPost ;;
      update_cookies resp ;;
      if status resp =? 401
      then _set_null_count ;; raise AuthError MLoginFailed
      else if negb (status resp =? 200)
      then raise ConnectionError (MConnectionStatus (status resp))
      else
        modify (set_header "application/json") ;;
        resp2 <- transport LoginVerify ;;
        if empty_cookie resp2
        then _set_null_count ;; raise AuthError (MNullCookie (status resp2))
        else if status resp2 =? 401
        then _set_null_count ;;
             raise AuthError (MVerificationFailed (status resp2))
        else if negb (status resp2 =? 200)
        then raise ConnectionError (MConnectionStatus (status resp2))
        else
          modify (set_null_cookie_count 0) ;;
          modify (set_authenticated true)).

(** [AIOSomeComfort.ensure_authenticated] *)
Definition ensure_authenticated : M unit :=
  s <- get ;;
  if negb (_is_authenticated s) then login else ret tt.

(** What [_request_json] returns: the decoded body of an
    [application/json] response, or the response object itself. *)
Inductive returned : Type :=
| Decoded (j : json_value)
| Undecoded (r : response).

Definition expected_content_type (ct : string) : bool :=
  String.eqb ct "application/json" || String.eqb ct "application/octet-stream".

(** [AIOSomeComfort._request_json] (no decorator) *)
Definition _request_json (method : string) : M returned :=
  resp <- transport (ApiRequest method) ;;
  update_cookies resp ;;
  if (status resp =? 200) && expected_content_type (content_type resp)
  then
    modify (set_null_cookie_count 0) ;;
    if String.eqb (content_type resp) "application/json"
    then match json resp with                      (* await resp.json() *)
         | Parsed decoded => ret (Decoded decoded)
         | Malformed => raise OtherException MOther
         | Unread AiohttpError => raise ClientError MTransport
         | Unread AsyncioTimeout => raise TimeoutError MTransport
         end
    else ret (Undecoded resp)
  else if status resp =? 401
  then modify (set_authenticated false) ;;
       raise UnauthorizedError MSessionExpired
  else if status resp =? 403
  then modify (set_authenticated false) ;;
       raise UnauthorizedError MForbidden
  else if ((status resp =? 500) || (status resp =? 502) || (status resp =? 503))
          || (0 <? history resp)%nat
  then raise ServiceUnavailable (MServiceUnavailable (status resp))
  else raise UnexpectedResponse (MApiReturned (status resp)).

(** The back-off of one failed attempt:
    [if attempt < retries - 1: await asyncio.sleep(RETRY_BACKOFF_BASE ** attempt)] *)
Definition backoff (attempt retries : Z) : M unit :=
  if attempt <? retries - 1
  then sleep (RETRY_BACKOFF_BASE ^ attempt)
  else ret tt.

(** The [for attempt in range(retries)] loop of [_request_json_with_retry]
    and the statements after it; [remaining] iterations are left, the next
    one has index [attempt]. *)
Fixpoint retry_loop (method : string) (retries : Z) (remaining : nat)
    (attempt : Z) (last_error : option exn) : M returned :=
  match remaining with
  | O =>
      match last_error with
      | Some e => reraise e
      | None => raise SomeComfortError MRetriesFailed
      end
  | S rest =>
      let continue := retry_loop method retries rest (attempt + 1) in
      r <- try_ (ensure_authenticated ;; _request_json method) ;;
      match r with
      | Ok v => ret v
      | Raise e =>
          match kind_of e with
          | UnauthorizedError =>
              modify (set_authenticated false) ;;
              r2 <- try_ login ;;
              match r2 with
              | Ok _ => continue last_error
              | Raise auth_err =>
                  match kind_of auth_err with
                  | AuthError | APIRateLimited =>
                      backoff attempt retries ;;
                      continue (Some auth_err)
                  | _ => reraise auth_err
                  end
              end
          | ServiceUnavailable | ConnectionError =>
              backoff attempt retries ;;
              continue (Some e)
          | _ => reraise e
          end
      end
  end.

(** [AIOSomeComfort._request_json_with_retry] *)
Definition _request_json_with_retry (method : string)
    (retry_count : option Z) : M returned :=
  s <- get ;;
  let retries := match retry_count with
                 | Some n => n
                 | None => _retry_count s
                 end in
  retry_loop method retries (Z.to_nat retries) 0 None.

Definition _get_json : M returned := _request_json_with_retry "get" None.
Definition _post_json : M returned := _request_json_with_retry "post" None.

(** [AIOSomeComfort.get_thermostat_data] *)
Definition get_thermostat_data (thermostat_id : string) : M returned :=
  modify (fun s => set_counter (_counter s + 1) s) ;;
  _get_json.

(** [json_responses.extend(await resp.json())]: a list is appended, a
    dict gives its keys, a string its characters; anything else is not
    iterable ([TypeError], shown as [None]). *)
Definition extend (json_responses : list json_value) (body : json_value)
  : option (list json_value) :=
  match body with
  | JList l => Some (json_responses ++ l)%list
  | JObj kv => Some (json_responses ++ map (fun p => JStr (fst p)) kv)%list
  | JStr t =>
      Some (json_responses
              ++ map (fun c => JStr (String c EmptyString))
                     (list_ascii_of_string t))%list
  | JNull | JBool _ | JNum _ | JFloat _ => None
  end.

(** The [for page in range(1, 5)] loop of [_get_locations]: any exception
    inside the [try] ends the loop with what was collected so far. *)
Fixpoint locations_pages (pages : list Z) (json_responses : list json_value)
  : M (list json_value) :=
  match pages with
  | [] => ret json_responses
  | page :: rest =>
      r <- try_ (ensure_authenticated ;;
                 resp <- transport (LocationsPage page) ;;
                 collected <-
                   (if String.eqb (content_type resp) "application/json"
                    then match json resp with
                         | Parsed decoded =>
                             match extend json_responses decoded with
                             | Some l => ret l
                             | None => raise OtherException MOther
                             end
                         | Malformed => raise OtherException MOther
                         | Unread AiohttpError => raise ClientError MTransport
                         | Unread AsyncioTimeout =>
                             raise TimeoutError MTransport
                         end
                    else ret json_responses) ;;
                 update_cookies resp ;;
                 ret collected) ;;
      match r with
      | Ok collected => locations_pages rest collected
      | Raise _ => ret json_responses
      end
  end.

(** [AIOSomeComfort._get_locations] *)
Definition _get_locations : M (option (list json_value)) :=
  json_responses <- locations_pages [1; 2; 3; 4] [] ;;
  match json_responses with
  | [] => ret None
  | _ => ret (Some json_responses)
  end.

End Client.

(** ** The coordinator ([MyHoneywellCoordinator]) *)

(** The [Device] class is not among the sources read here; the coordinator
    uses a device through [device.refresh()], [device.is_alive],
    [device.deviceid] and [device.name] only. *)
Record device : Type := { deviceid : string; name : string }.

(** The dict [_async_update_data] returns: device id to its [available]
    flag (the other entry of a reading is the device object itself).
    Kept in insertion order, one entry per key. *)
Definition device_data : Type := list (string * bool).

Fixpoint dict_set (d : device_data) (k : string) (v : bool) : device_data :=
  match d with
  | [] => [(k, v)]
  | (k', v') :: rest =>
      if String.eqb k' k then (k, v) :: rest else (k', v') :: dict_set rest k v
  end.

Fixpoint dict_get (d : device_data) (k : string) : option bool :=
  match d with
  | [] => None
  | (k', v) :: rest => if String.eqb k' k then Some v else dict_get rest k
  end.

Record coordinator : Type := {
  client_of : client;                 (* hass.data[DOMAIN][entry_id]["client"] *)
  devices : list device;              (* hass.data[DOMAIN][entry_id]["devices"] *)
  _consecutive_errors : Z;
  _max_consecutive_errors : Z;
  data : option device_data;          (* DataUpdateCoordinator.data *)
  (* bookkeeping of the model, not attributes of the object *)
  recoveries : nat;   (* times the [except UnauthorizedError] clause was entered *)
  restarts : nat      (* times [_async_update_data] re-entered itself *)
}.

(** [MyHoneywellCoordinator.__init__] *)
Definition new_coordinator (c : client) (ds : list device) : coordinator :=
  {| client_of := c; devices := ds;
     _consecutive_errors := 0; _max_consecutive_errors := 5;
     data := None; recoveries := 0; restarts := 0 |}.

Definition set_client (c : client) (k : coordinator) : coordinator :=
  {| client_of := c; devices := devices k;
     _consecutive_errors := _consecutive_errors k;
     _max_consecutive_errors := _max_consecutive_errors k;
     data := data k; recoveries := recoveries k; restarts := restarts k |}.

Definition set_consecutive_errors (n : Z) (k : coordinator) : coordinator :=
  {| client_of := client_of k; devices := devices k;
     _consecutive_errors := n;
     _max_consecutive_errors := _max_consecutive_errors k;
     data := data k; recoveries := recoveries k; restarts := restarts k |}.

Definition set_data (d : option device_data) (k : coordinator) : coordinator :=
  {| client_of := client_of k; devices := devices k;
     _consecutive_errors := _consecutive_errors k;
     _max_consecutive_errors := _max_consecutive_errors k;
     data := d; recoveries := recoveries k; restarts := restarts k |}.

Definition note_recovery (k : coordinator) : coordinator :=
  {| client_of := client_of k; devices := devices k;
     _consecutive_errors := _consecutive_errors k;
     _max_consecutive_errors := _max_consecutive_errors k;
     data := data k; recoveries := S (recoveries k); restarts := restarts k |}.

Definition note_restart (k : coordinator) : coordinator :=
  {| client_of := client_of k; devices := devices k;
     _consecutive_errors := _consecutive_errors k;
     _max_consecutive_errors := _max_consecutive_errors k;
     data := data k; recoveries := recoveries k; restarts := S (restarts k) |}.

(** A coroutine of the client, awaited by the coordinator. *)
Definition on_client {A} (c : M A) : Co coordinator A :=
  fun k => let (r, s') := c (client_of k) in (r, set_client s' k).

(** [self._consecutive_errors += 1] *)
Definition count_error : Co coordinator unit :=
  modify (fun k => set_consecutive_errors (_consecutive_errors k + 1) k).

(** [self.data if self.data else {}] *)
Definition previous_snapshot (k : coordinator) : device_data :=
  match data k with
  | Some (e :: d) => e :: d
  | Some [] | None => []
  end.

(** [return self.data if self.data else {}] *)
Definition stale_data : Co coordinator device_data :=
  k <- get ;;
  ret (previous_snapshot k).

Section Coordinator.

Variable net : nat -> outcome.

(** [await device.refresh()] followed by the reading of [device.is_alive]:
    the refresh raises, or returns and leaves the device alive or not. *)
Variable refresh : device -> M bool.

(** The [for device in devices] loop with its per-device [try]. *)
Fixpoint refresh_devices (ds : list device) (readings : device_data)
  : M device_data :=
  match ds with
  | [] => ret readings
  | d :: rest =>
      r <- try_ (refresh d) ;;
      match r with
      | Ok alive => refresh_devices rest (dict_set readings (deviceid d) alive)
      | Raise ex =>
          if is_SomeComfortError (kind_of ex)
          then refresh_devices rest (dict_set readings (deviceid d) false)
          else reraise ex
      end
  end.

(** The body of the outer [try] of [_async_update_data]. *)
Definition try_body : Co coordinator device_data :=
  on_client (ensure_authenticated net) ;;
  k <- get ;;
  readings <- on_client (refresh_devices (devices k) []) ;;
  modify (set_consecutive_errors 0) ;;
  ret readings.

(** [_async_update_data], its [try] body being [body]: the [except]
    clauses in their order.  The method calls itself, so the definition
    takes the depth of recursion it may use; [None] says that depth was
    not enough. *)
Fixpoint update_cycle (body : Co coordinator device_data) (depth : nat)
    (k : coordinator) : option (result device_data * coordinator) :=
  match depth with
  | O => None
  | S depth' =>
      match body k with
      | (Ok readings, k1) => Some (Ok readings, k1)
      | (Raise ex, k1) =>
          match kind_of ex with
          | UnauthorizedError =>
              match on_client (login net) (note_recovery k1) with
              | (Ok _, k2) =>
                  match update_cycle body depth' (note_restart k2) with
                  | None => None
                  | Some (Ok readings, k3) => Some (Ok readings, k3)
                  | Some (Raise auth_ex, k3) =>
                      match kind_of auth_ex with
                      | AuthError =>
                          Some ((count_error ;;
                                 raise UpdateFailed
                                   (MReauthFailed (msg_of auth_ex))) k3)
                      | _ => Some (Raise auth_ex, k3)
                      end
                  end
              | (Raise auth_ex, k2) =>
                  match kind_of auth_ex with
                  | AuthError =>
                      Some ((count_error ;;
                             raise UpdateFailed
                               (MReauthFailed (msg_of auth_ex))) k2)
                  | _ => Some (Raise auth_ex, k2)
                  end
              end
          | APIRateLimited =>
              Some ((count_error ;; stale_data) k1)
          | ServiceUnavailable =>
              Some ((count_error ;;
                     k' <- get ;;
                     if _consecutive_errors k' >=? _max_consecutive_errors k'
                     then raise UpdateFailed
                            (MUnavailableAfter (_consecutive_errors k') (msg_of ex))
                     else stale_data) k1)
          | ConnectionError =>
              Some ((count_error ;;
                     k' <- get ;;
                     if _consecutive_errors k' >=? _max_consecutive_errors k'
                     then raise UpdateFailed
                            (MConnectionAfter (_consecutive_errors k') (msg_of ex))
                     else stale_data) k1)
          | _ =>
              Some ((count_error ;;
                     raise UpdateFailed (MUnexpected (msg_of ex))) k1)
          end
      end
  end.

(** [MyHoneywellCoordinator._async_update_data] *)
Definition _async_update_data (depth : nat) (k : coordinator)
  : option (result device_data * coordinator) :=
  update_cycle try_body depth k.

End Coordinator.

(** ** The classification of §4.3, as the specification words it *)

Inductive verdict : Type :=
| Success
| Failure (k : kind).

(** "200 + expected content type -> success; 401 or 403 ->
    UnauthorizedError; 500/502/503 or a response that underwent an
    internal redirect -> ServiceUnavailable; anything else non-2xx ->
    UnexpectedResponse", in this order.  The sentence leaves open what
    becomes of a 2xx response that is neither a success nor redirected:
    [None]. *)
Definition spec_classify (r : response) : option verdict :=
  if (status r =? 200) && expected_content_type (content_type r)
  then Some Success
  else if (status r =? 401) || (status r =? 403)
  then Some (Failure UnauthorizedError)
  else if ((status r =? 500) || (status r =? 502) || (status r =? 503))
          || negb (history r =? 0)%nat
  then Some (Failure ServiceUnavailable)
  else if (status r <? 200) || (299 <? status r)
  then Some (Failure UnexpectedResponse)
  else None.

Definition verdict_of {A} (r : result A) : verdict :=
  match r with
  | Ok _ => Success
  | Raise e => Failure (kind_of e)
  end.

(** What [_request_json] makes of a successful response: the decoded
    body, the response itself when it is not JSON, or the error of
    reading or decoding the body. *)
Definition returned_of (r : response) : result returned :=
  if String.eqb (content_type r) "application/json"
  then match json r with
       | Parsed decoded => Ok (Decoded decoded)
       | Malformed => Raise (Exc OtherException MOther)
       | Unread AiohttpError => Raise (Exc ClientError MTransport)
       | Unread AsyncioTimeout => Raise (Exc TimeoutError MTransport)
       end
  else Ok (Undecoded r).

(** The kinds [_request_json_with_retry] can end with. *)
Definition terminal_error (k : kind) : bool :=
  match k with
  | AuthError | APIRateLimited | ConnectionError | ServiceUnavailable
  | UnexpectedResponse | SomeComfortError | ClientError | TimeoutError
  | OtherException => true
  | _ => false
  end.

(** The kinds [login()] can end with. *)
Definition login_error (k : kind) : bool :=
  match k with
  | APIRateLimited | AuthError | ConnectionError | TimeoutError => true
  | _ => false
  end.

(** The kinds [_request_json] can end with. *)
Definition request_error (k : kind) : bool :=
  match k with
  | UnauthorizedError | ServiceUnavailable | UnexpectedResponse
  | ClientError | TimeoutError | OtherException => true
  | _ => false
  end.

(** How [_request_json_with_retry] may end: with the body of a response
    of status 200 that its last transport call received, or with an error
    of one of the kinds of [terminal_error]. *)
Definition ends_well (method : string) (r : result returned) (s' : client) : Prop :=
  match r with
  | Ok v =>
      exists out resp rest,
        log s' = (ApiRequest method, out) :: rest /\
        result_of out = Responds resp /\
        status resp = 200 /\
        returned_of resp = Ok v
  | Raise e => terminal_error (kind_of e) = true
  end.

(** The session invariant of §3: a session believed authenticated has not
    just been answered 401 or 403. *)
Definition session_invariant (s : client) : Prop :=
  _is_authenticated s = true -> last_call_unauthorized s = false.

(** ** The device loop, read as a plain map *)

(** The flag recorded for a device: what [is_alive] gave after its
    refresh, [False] when the refresh raised. *)
Definition flag_of (r : result bool) : bool :=
  match r with
  | Ok alive => alive
  | Raise _ => false
  end.

(** Every device refreshed in turn, whatever became of the devices before
    it: the ids with their flags, and the client as the last refresh
    leaves it. *)
Fixpoint device_flags (refresh : device -> M bool) (ds : list device)
    (s : client) : list (string * bool) * client :=
  match ds with
  | [] => ([], s)
  | d :: rest =>
      let out := refresh d s in
      let tail := device_flags refresh rest (snd out) in
      ((deviceid d, flag_of (fst out)) :: fst tail, snd tail)
  end.

(** The entries assigned to a dict one after the other. *)
Fixpoint recorded (entries : list (string * bool)) (readings : device_data)
  : device_data :=
  match entries with
  | [] => readings
  | (k, v) :: rest => recorded rest (dict_set readings k v)
  end.

(** ** Networks and objects of the examples *)

(** A JSON response with the given status and auth cookie, no redirect. *)
Definition answer (st : Z) (cookie : option string) : outcome :=
  {| elapsed := 0;
     result_of := Responds {| status := st;
                              content_type := "application/json";
                              history := 0;
                              auth_cookie := cookie;
                              json := Parsed JNull |} |}.

Definition broken : outcome := {| elapsed := 0; result_of := Fails AiohttpError |}.

(** An HTML page sent with status 401. *)
Definition refusal : outcome :=
  {| elapsed := 0;
     result_of := Responds {| status := 401;
                              content_type := "text/html";
                              history := 0;
                              auth_cookie := None;
                              json := Parsed JNull |} |}.

Definition always (o : outcome) : nat -> outcome := fun _ => o.

(** Statuses [a], [b], [a], [b], .. at the even and odd calls. *)
Definition alternating (a b : Z) : nat -> outcome :=
  fun n => if Nat.even n then answer a None else answer b None.

(** The outcomes of [l] in turn, [default] ever after. *)
Definition script (l : list outcome) (default : outcome) : nat -> outcome :=
  fun n => nth n l default.

Definition fresh : client := new_client "user" "secret" DEFAULT_RETRY_COUNT 0.

(** The client after a first, successful [login()]: two transport calls
    made, [_is_authenticated] set. *)
Definition logged_in : client := snd (login (always (answer 200 None)) fresh).

Definition thermostat : device := {| deviceid := "1234"; name := "Hall" |}.

(** A coordinator that has seen four failed cycles in a row and still
    holds the readings of the last good one. *)
Definition four_failures : coordinator :=
  set_data (Some [("1234", true)])
    (set_consecutive_errors 4 (new_coordinator fresh [thermostat])).

(** A refresh that always succeeds without any request. *)
Definition refresh_ok : device -> M bool := fun _ => ret true.

(** A refresh that issues one bare [_request_json]. *)
Definition refresh_bare (net : nat -> outcome) : device -> M bool :=
  fun _ => _request_json net "get" ;; ret true.

(** Status 401 at transport call [i], 200 at every other. *)
Definition refused_at (i : nat) : nat -> outcome :=
  fun n => if Nat.eqb n i then answer 401 None else answer 200 None.

Definition upstairs : device := {| deviceid := "5678"; name := "Upstairs" |}.

Definition basement : device := {| deviceid := "9012"; name := "Basement" |}.

(** ** More of [AIOSomeComfort]: commands and device lookup *)

(** A Python dict with string keys: insertion order, one entry per key. *)
Fixpoint assoc_get {V : Type} (d : list (string * V)) (k : string) : option V :=
  match d with
  | [] => None
  | (k', v) :: rest => if String.eqb k' k then Some v else assoc_get rest k
  end.

Fixpoint assoc_set {V : Type} (d : list (string * V)) (k : string) (v : V)
  : list (string * V) :=
  match d with
  | [] => [(k, v)]
  | (k', v') :: rest =>
      if String.eqb k' k then (k, v) :: rest else (k', v') :: assoc_set rest k v
  end.

(** [d.update(other)] *)
Definition assoc_update {V : Type} (d other : list (string * V))
  : list (string * V) :=
  fold_left (fun acc kv => assoc_set acc (fst kv) (snd kv)) other d.

(** The keys [set_thermostat_settings] always sends. *)
Definition settings_keys : list string :=
  ["DeviceID"; "SystemSwitch"; "HeatSetpoint"; "CoolSetpoint";
   "HeatNextPeriod"; "CoolNextPeriod"; "StatusHeat"; "StatusCool"; "FanMode"].

(** The [data] dict of [set_thermostat_settings] after
    [data.update(settings)]; [None] is Python's [None]. *)
Definition thermostat_payload (thermostat_id : string)
    (settings : list (string * option string)) : list (string * option string) :=
  assoc_update
    [("DeviceID", Some thermostat_id); ("SystemSwitch", None);
     ("HeatSetpoint", None); ("CoolSetpoint", None);
     ("HeatNextPeriod", None); ("CoolNextPeriod", None);
     ("StatusHeat", None); ("StatusCool", None); ("FanMode", None)]
    settings.

(** [value == 1] in Python for a decoded JSON value: the integer 1, the
    float 1.0 and [True]. *)
Definition equals_one (v : json_value) : bool :=
  match v with
  | JNum n => n =? 1
  | JBool b => b
  | JFloat f => PrimFloat.eqb f 1%float
  | JNull | JStr _ | JList _ | JObj _ => false
  end.

Section Commands.

Variable net : nat -> outcome.

(** [AIOSomeComfort.get_data] *)
Definition get_data (thermostat_id : string) : M returned := _post_json net.

(** [AIOSomeComfort.set_thermostat_settings].  The request carries
    [thermostat_payload thermostat_id settings] as its JSON body, which the
    network of the model does not look at.  [result.get] exists on a dict
    only: any other value that is not [None] is an [AttributeError]. *)
Definition set_thermostat_settings (thermostat_id : string)
    (settings : list (string * option string)) : M unit :=
  result <- _post_json net ;;
  match result with
  | Decoded JNull => raise APIError MOther
  | Decoded (JObj kv) =>
      match assoc_get kv "success" with
      | Some v => if equals_one v then ret tt else raise APIError MOther
      | None => raise APIError MOther
      end
  | Decoded _ | Undecoded _ => raise OtherException MOther
  end.

End Commands.

(** [locations_by_id], each location shown by its [devices_by_id]. *)
Definition locations : Type := list (string * list (string * device)).

(** [AIOSomeComfort.get_device] *)
Fixpoint get_device (locs : locations) (device_id : string) : option device :=
  match locs with
  | [] => None
  | (_, devices_by_id) :: rest =>
      match assoc_get devices_by_id device_id with
      | Some d => Some d
      | None => get_device rest device_id
      end
  end.

(** [AIOSomeComfort.default_device] *)
Fixpoint default_device (locs : locations) : option device :=
  match locs with
  | [] => None
  | (_, []) :: rest => default_device rest
  | (_, (_, d) :: _) :: _ => Some d
  end.

(** The sleeps of a retry loop whose [count] failed attempts with a
    back-off start at attempt [first]: [2 ** attempt] seconds each, newest
    first as in [sleeps]. *)
Definition backoff_schedule (first count : nat) : list Z :=
  rev (map (fun i => RETRY_BACKOFF_BASE ^ Z.of_nat i) (seq first count)).

(** A response the classifier of [_request_json] takes for an outage by
    its status. *)
Definition unavailable_status (r : response) : bool :=
  (status r =? 500) || (status r =? 502) || (status r =? 503).

(** [s'] has the request counter, the credentials and the configured
    retry count of [s]. *)
Definition same_identity (s s' : client) : Prop :=
  _counter s' = _counter s /\
  credentials s' = credentials s /\
  _retry_count s' = _retry_count s.

(** ** [climate.py] and [sensor.py] *)

(** [homeassistant.components.climate.HVACMode] *)
Inductive HVACMode : Type :=
| HVAC_OFF
| HVAC_HEAT
| HVAC_COOL
| HVAC_HEAT_COOL
| HVAC_AUTO
| HVAC_DRY
| HVAC_FAN_ONLY.

Definition HVACMode_eqb (a b : HVACMode) : bool :=
  match a, b with
  | HVAC_OFF, HVAC_OFF | HVAC_HEAT, HVAC_HEAT | HVAC_COOL, HVAC_COOL
  | HVAC_HEAT_COOL, HVAC_HEAT_COOL | HVAC_AUTO, HVAC_AUTO
  | HVAC_DRY, HVAC_DRY | HVAC_FAN_ONLY, HVAC_FAN_ONLY => true
  | _, _ => false
  end.

(** [FAN_AUTO], [FAN_ON], [FAN_DIFFUSE] of Home Assistant. *)
Definition FAN_AUTO : string := "auto".
Definition FAN_ON : string := "on".
Definition FAN_DIFFUSE : string := "diffuse".

Definition HVAC_MODE_MAP : list (string * HVACMode) :=
  [("heat", HVAC_HEAT); ("cool", HVAC_COOL); ("auto", HVAC_HEAT_COOL);
   ("off", HVAC_OFF); ("emheat", HVAC_HEAT)].

(** [HA_MODE_TO_HONEYWELL.get(hvac_mode)] *)
Definition HA_MODE_TO_HONEYWELL (m : HVACMode) : option string :=
  match m with
  | HVAC_HEAT => Some "heat"
  | HVAC_COOL => Some "cool"
  | HVAC_HEAT_COOL => Some "auto"
  | HVAC_OFF => Some "off"
  | HVAC_AUTO | HVAC_DRY | HVAC_FAN_ONLY => None
  end.

Definition FAN_MODE_MAP : list (string * string) :=
  [("auto", FAN_AUTO); ("on", FAN_ON); ("circulate", FAN_DIFFUSE)].

Definition RETRY_ATTEMPTS : Z := 3.

(** [MyHoneywellClimate.hvac_mode], from [device.system_mode]. *)
Definition hvac_mode (system_mode : option string) : HVACMode :=
  match system_mode with
  | Some mode =>
      match assoc_get HVAC_MODE_MAP mode with
      | Some m => m
      | None => HVAC_OFF
      end
  | None => HVAC_OFF
  end.

(** [MyHoneywellClimate.fan_mode], from [device.fan_mode]. *)
Definition fan_mode (device_fan_mode : option string) : option string :=
  match device_fan_mode with
  | Some mode => assoc_get FAN_MODE_MAP mode
  | None => None
  end.

(** The reverse lookup at the head of [async_set_fan_mode]. *)
Fixpoint honeywell_fan_of (items : list (string * string)) (fan : string)
  : option string :=
  match items with
  | [] => None
  | (hw_mode, ha_mode) :: rest =>
      if String.eqb ha_mode fan then Some hw_mode else honeywell_fan_of rest fan
  end.

(** [available] of the climate and of the sensor entities. *)
Definition entity_available (k : coordinator) (device_id : string) : bool :=
  match data k with
  | Some (e :: d) =>
      match dict_get (e :: d) device_id with
      | Some available => available
      | None => false
      end
  | Some [] | None => false
  end.

Section Climate.

(** The methods of the [Device] the entity drives, the refresh request of
    the coordinator and the reading of [device.system_mode]. *)
Variable temperature : Type.
Variable set_system_mode : string -> Co coordinator unit.
Variable set_fan_mode : string -> Co coordinator unit.
Variable set_setpoint_cool : temperature -> Co coordinator unit.
Variable set_setpoint_heat : temperature -> Co coordinator unit.
Variable async_request_refresh : Co coordinator unit.
Variable system_mode : coordinator -> option string.

(** The [for attempt in range(RETRY_ATTEMPTS)] loop the three commands
    share: [command], then the refresh request, inside the [try]. *)
Fixpoint command_attempts (command : Co coordinator unit) (remaining : nat)
    (attempt : Z) : Co coordinator unit :=
  match remaining with
  | O => ret tt
  | S rest =>
      r <- try_ (command ;; async_request_refresh) ;;
      match r with
      | Ok _ => ret tt
      | Raise ex =>
          if is_SomeComfortError (kind_of ex)
          then
            (if attempt <? RETRY_ATTEMPTS - 1
             then on_client (sleep (2 ^ attempt))
             else ret tt) ;;
            command_attempts command rest (attempt + 1)
          else reraise ex
      end
  end.

(** [MyHoneywellClimate.async_set_hvac_mode] *)
Definition async_set_hvac_mode (mode : HVACMode) : Co coordinator unit :=
  match HA_MODE_TO_HONEYWELL mode with
  | None => ret tt
  | Some honeywell_mode =>
      if String.eqb honeywell_mode ""
      then ret tt
      else command_attempts (set_system_mode honeywell_mode)
             (Z.to_nat RETRY_ATTEMPTS) 0
  end.

(** [MyHoneywellClimate.async_set_fan_mode] *)
Definition async_set_fan_mode (fan : string) : Co coordinator unit :=
  match honeywell_fan_of FAN_MODE_MAP fan with
  | None => ret tt
  | Some honeywell_fan =>
      if String.eqb honeywell_fan ""
      then ret tt
      else command_attempts (set_fan_mode honeywell_fan)
             (Z.to_nat RETRY_ATTEMPTS) 0
  end.

(** [MyHoneywellClimate.async_set_temperature]; the three arguments are
    [kwargs.get(ATTR_TEMPERATURE)], [kwargs.get(ATTR_TARGET_TEMP_LOW)] and
    [kwargs.get(ATTR_TARGET_TEMP_HIGH)]. *)
Definition async_set_temperature (temp temp_low temp_high : option temperature)
  : Co coordinator unit :=
  command_attempts
    ((match temp with
      | Some t =>
          k <- get ;;
          if HVACMode_eqb (hvac_mode (system_mode k)) HVAC_COOL
          then set_setpoint_cool t
          else set_setpoint_heat t
      | None => ret tt
      end) ;;
     (match temp_low with
      | Some t => set_setpoint_heat t
      | None => ret tt
      end) ;;
     (match temp_high with
      | Some t => set_setpoint_cool t
      | None => ret tt
      end))
    (Z.to_nat RETRY_ATTEMPTS) 0.

(** [MyHoneywellClimate.async_turn_on] and [async_turn_off] *)
Definition async_turn_on : Co coordinator unit := async_set_hvac_mode HVAC_HEAT.
Definition async_turn_off : Co coordinator unit := async_set_hvac_mode HVAC_OFF.

End Climate.

(** Objects of the examples for the commands. *)

(** A JSON response of status 200 with the given body. *)
Definition json_answer (j : json_value) : outcome :=
  {| elapsed := 0;
     result_of := Responds {| status := 200;
                              content_type := "application/json";
                              history := 0;
                              auth_cookie := None;
                              json := Parsed j |} |}.

(** A device method that fails with [ServiceUnavailable] every time. *)
Definition failing_command : string -> Co coordinator unit :=
  fun _ => raise ServiceUnavailable (MServiceUnavailable 503).

(** A refresh that raises [APIError] every time. *)
Definition refresh_rejected : device -> M bool :=
  fun _ => raise APIError MOther.

(** * Properties *)

(** ** Proof automation: running a coroutine of the client by cases *)

Arguments requests : simpl never.
Arguments last_call_unauthorized : simpl never.

Ltac run :=
  cbv [login _convert_errors _request_json ensure_authenticated
       _set_null_count update_cookies transport sleep backoff
       bind ret raise reraise get modify try_ kind_of msg_of calls].

Ltac branch :=
  match goal with
  | |- context [match result_of ?o with _ => _ end] =>
      destruct (result_of o) as [?r|[|]] eqn:?
  | |- context [match auth_cookie ?r with _ => _ end] =>
      destruct (auth_cookie r) eqn:?
  | |- context [match json ?r with _ => _ end] =>
      destruct (json r) as [?decoded| |[|]] eqn:?
  | |- context [if ?b then _ else _] => destruct b eqn:?
  end.

Ltac cases := run; cbn; repeat (branch; cbn).

Ltac same_pair :=
  match goal with
  | |- (_, _) = (_, _) -> _ =>
      let E := fresh "E" in intros E; inversion E; subst; clear E; cbn
  end.

(** ** login() *)

Lemma login_rate_limited net s :
  now s < _next_login s ->
  login net s
  = (Raise (Exc APIRateLimited (MRateLimit (_next_login s - now s))),
     set_header "application/x-www-form-urlencoded" s).
Proof.
  intros H. run. cbn.
  replace (_next_login s >? now s) with true by (symmetry; apply Z.gtb_lt; lia).
  reflexivity.
Qed.

(** A login that ends with "Null cookie error" made both transport calls,
    counted one more null cookie, and started the cool-down when the count
    reached [MAX_LOGIN_ATTEMPTS]. *)
Lemma login_null_cookie net s st s' :
  login net s = (Raise (Exc AuthError (MNullCookie st)), s') ->
  _null_cookie_count s' = _null_cookie_count s + 1 /\
  _is_authenticated s' = false /\
  calls s' = S (S (calls s)) /\
  _next_login s' = (if _null_cookie_count s + 1 >=? MAX_LOGIN_ATTEMPTS
                    then now s' + MIN_LOGIN_TIME
                    else _next_login s).
Proof.
  cases; same_pair; try discriminate; repeat split; try reflexivity;
    match goal with H : _ = ?b |- _ = (if _ then _ else _) => rewrite H end;
    reflexivity.
Qed.

Lemma advance_fields d s :
  _null_cookie_count (advance d s) = _null_cookie_count s /\
  _next_login (advance d s) = _next_login s /\
  now (advance d s) = now s + d /\
  calls (advance d s) = calls s.
Proof. repeat split. Qed.

(** C9.  For every session state in which the current time is earlier than
    [_next_login], [login()] fails with [APIRateLimited] and performs no
    transport call; authenticated flag, null-cookie counter, next allowed
    login time and credentials (the Session of the specification) stay as
    they were.  The only attribute written before that test is the
    [Content-Type] request header. *)
Theorem C9_login_rate_limited_no_transport (net : nat -> outcome) (s : client) :
  now s < _next_login s ->
  exists s',
    login net s
    = (Raise (Exc APIRateLimited (MRateLimit (_next_login s - now s))), s') /\
    calls s' = calls s /\
    log s' = log s /\
    _is_authenticated s' = _is_authenticated s /\
    _next_login s' = _next_login s /\
    _null_cookie_count s' = _null_cookie_count s /\
    credentials s' = credentials s /\
    cookie_jar s' = cookie_jar s /\
    now s' = now s /\
    s' = set_header "application/x-www-form-urlencoded" s.
Proof.
  intros H. eexists. split; [apply login_rate_limited; exact H|].
  repeat split.
Qed.

Lemma C9_witness :
  exists s',
    login (always (answer 200 None)) (set_next_login 10 fresh)
    = (Raise (Exc APIRateLimited (MRateLimit 10)), s') /\
    calls s' = 0%nat.
Proof.
  destruct (C9_login_rate_limited_no_transport
              (always (answer 200 None)) (set_next_login 10 fresh))
    as [s' [E [Hc _]]].
  - vm_compute. reflexivity.
  - exists s'. split; [exact E | exact Hc].
Defined.

(** C8.  After three consecutive [login()] calls that ended with an empty
    auth cookie, [_next_login] is the time of the third failure plus ten
    minutes, and a further [login()] started before that time fails with
    [APIRateLimited] without a transport call. *)
Theorem C8_cooldown_after_three_null_cookies
    (net : nat -> outcome) (s0 s1 s2 s3 : client) (st1 st2 st3 d1 d2 : Z) :
  0 <= _null_cookie_count s0 ->
  login net s0 = (Raise (Exc AuthError (MNullCookie st1)), s1) ->
  login net (advance d1 s1) = (Raise (Exc AuthError (MNullCookie st2)), s2) ->
  login net (advance d2 s2) = (Raise (Exc AuthError (MNullCookie st3)), s3) ->
  _null_cookie_count s3 = _null_cookie_count s0 + 3 /\
  _next_login s3 = now s3 + 10 * 60 * 1000000 /\
  forall d, now (advance d s3) < _next_login s3 ->
    exists w s4,
      login net (advance d s3) = (Raise (Exc APIRateLimited (MRateLimit w)), s4) /\
      calls s4 = calls s3.
Proof.
  intros H0 L1 L2 L3.
  apply login_null_cookie in L1. destruct L1 as [C1 _].
  apply login_null_cookie in L2. destruct L2 as [C2 _].
  apply login_null_cookie in L3. destruct L3 as [C3 [_ [_ N3]]].
  cbn in C2, C3, N3.
  assert (T : (_null_cookie_count s2 + 1 >=? MAX_LOGIN_ATTEMPTS) = true).
  { unfold MAX_LOGIN_ATTEMPTS. apply Z.geb_le. lia. }
  rewrite T in N3. split; [lia|]. split; [exact N3|].
  intros d Hd. do 2 eexists. split.
  - apply login_rate_limited. exact Hd.
  - reflexivity.
Qed.

Lemma C8_witness :
  let net := fun n => if Nat.even n then answer 200 None
                      else answer 200 (Some "") in
  let s1 := snd (login net fresh) in
  let s2 := snd (login net s1) in
  let s3 := snd (login net s2) in
  _null_cookie_count s3 = 3 /\
  _next_login s3 = now s3 + 600000000 /\
  exists w s4,
    login net (advance 599999999 s3)
    = (Raise (Exc APIRateLimited (MRateLimit w)), s4) /\
    calls s4 = 6%nat.
Proof.
  intros net s1 s2 s3.
  destruct (C8_cooldown_after_three_null_cookies
              net fresh s1 s2 s3 200 200 200 0 0)
    as [Hc [Hn Hw]];
    [ vm_compute; discriminate
    | vm_compute; reflexivity | vm_compute; reflexivity
    | vm_compute; reflexivity | ].
  split; [exact Hc|]. split; [exact Hn|].
  apply (Hw 599999999). vm_compute. reflexivity.
Defined.

(** C6, as stated, fails: a verification response with status 200 and no
    auth cookie at all is a successful login.  Here the client had counted
    two null cookies before; the login clears the counter and sets
    [_is_authenticated]. *)
Lemma C6_missing_cookie_is_success :
  let s := set_null_cookie_count 2 fresh in
  let out := login (always (answer 200 None)) s in
  fst out = Ok tt /\
  _is_authenticated (snd out) = true /\
  _null_cookie_count (snd out) = 0 /\
  ~ (verdict_of (fst out) = Failure AuthError).
Proof.
  vm_compute. repeat split; discriminate.
Qed.

(** C6, amended.  When [login()] is not rate limited and both handshake
    responses have status 200: an auth cookie with an empty value in the
    verification response makes it count one more null cookie (starting the
    cool-down at three), clear [_is_authenticated] and fail with
    [AuthError]; a verification response without the cookie, or with a
    non-empty one, makes it succeed, with the counter cleared and
    [_is_authenticated] set. *)
Theorem C6_empty_cookie_fails_missing_cookie_succeeds
    (net : nat -> outcome) (s : client) (r1 r2 : response) :
  _next_login s <= now s ->
  result_of (net (calls s)) = Responds r1 ->
  status r1 = 200 ->
  result_of (net (S (calls s))) = Responds r2 ->
  status r2 = 200 ->
  let out := login net s in
  (auth_cookie r2 = Some "" ->
     fst out = Raise (Exc AuthError (MNullCookie 200)) /\
     _null_cookie_count (snd out) = _null_cookie_count s + 1 /\
     _is_authenticated (snd out) = false /\
     _next_login (snd out)
     = (if _null_cookie_count s + 1 >=? MAX_LOGIN_ATTEMPTS
        then now (snd out) + MIN_LOGIN_TIME
        else _next_login s)) /\
  (empty_cookie r2 = false ->
     fst out = Ok tt /\
     _null_cookie_count (snd out) = 0 /\
     _is_authenticated (snd out) = true /\
     _next_login (snd out) = _next_login s).
Proof.
  intros Hopen H1 S1 H2 S2. unfold calls in H1, H2.
  assert (G : (_next_login s >? now s) = false).
  { destruct (_next_login s >? now s) eqn:E; [apply Z.gtb_lt in E; lia | reflexivity]. }
  split.
  - intros Hc.
    assert (He : empty_cookie r2 = true) by (unfold empty_cookie; rewrite Hc; reflexivity).
    run. cbn. rewrite G. cbn. rewrite H1.
    destruct (auth_cookie r1); cbn; rewrite S1; cbn; rewrite H2; cbn;
      rewrite He, S2; cbn;
      destruct (_null_cookie_count s + 1 >=? MAX_LOGIN_ATTEMPTS) eqn:T; cbn;
      rewrite ?T; repeat split; reflexivity.
  - intros He.
    run. cbn. rewrite G. cbn. rewrite H1.
    destruct (auth_cookie r1); cbn; rewrite S1; cbn; rewrite H2; cbn;
      rewrite He, S2; cbn; repeat split; reflexivity.
Qed.

Lemma C6_witness :
  let net := script [answer 200 None; answer 200 (Some "")] broken in
  fst (login net fresh) = Raise (Exc AuthError (MNullCookie 200)) /\
  _null_cookie_count (snd (login net fresh)) = 1 /\
  _is_authenticated (snd (login net fresh)) = false.
Proof.
  intros net.
  destruct (C6_empty_cookie_fails_missing_cookie_succeeds
              net fresh
              {| status := 200; content_type := "application/json";
                 history := 0; auth_cookie := None; json := Parsed JNull |}
              {| status := 200; content_type := "application/json";
                 history := 0; auth_cookie := Some ""; json := Parsed JNull |})
    as [Hempty _];
    [ vm_compute; discriminate | reflexivity | reflexivity
    | reflexivity | reflexivity | ].
  destruct (Hempty eq_refl) as [Hr [Hc [Ha _]]].
  split; [exact Hr|]. split; [exact Hc | exact Ha].
Defined.

(** ** _request_json *)

(** On every response [_request_json] follows the precedence of §4.3:
    wherever the specification names a failure the code raises it, a 2xx
    response the sentence leaves open raises [UnexpectedResponse], and
    where the specification names a success the code returns the body of
    that response, or the error of decoding it. *)
Lemma _request_json_follows_precedence
    (net : nat -> outcome) (method : string) (s : client) (r : response) :
  result_of (net (calls s)) = Responds r ->
  let out := _request_json net method s in
  (forall k, spec_classify r = Some (Failure k) ->
     verdict_of (fst out) = Failure k) /\
  (spec_classify r = None ->
     verdict_of (fst out) = Failure UnexpectedResponse) /\
  (spec_classify r = Some Success -> fst out = returned_of r) /\
  (verdict_of (fst out) = Success -> spec_classify r = Some Success).
Proof.
  intros H. unfold calls in H. unfold spec_classify, returned_of.
  run. cbn. rewrite H.
  destruct (history r); destruct (auth_cookie r); cbn;
    destruct (status r =? 200) eqn:E200;
    destruct (expected_content_type (content_type r)); cbn;
    destruct (status r =? 401) eqn:E401; cbn;
    destruct (status r =? 403) eqn:E403; cbn;
    destruct ((status r =? 500) || (status r =? 502) || (status r =? 503)); cbn;
    destruct ((status r <? 200) || (299 <? status r)) eqn:Erange; cbn;
    destruct (content_type r =? "application/json")%string; cbn;
    try destruct (json r) as [?| |[|]]; cbn;
    repeat split; intros; try congruence;
    try (apply Z.eqb_eq in E200; apply Z.eqb_eq in E401; lia);
    try (apply Z.eqb_eq in E200; apply Z.eqb_eq in E403; lia).
Qed.

(** Whatever the response, [_request_json] raises nothing outside
    [UnauthorizedError], [ServiceUnavailable], [UnexpectedResponse] and
    the error of reading or decoding the body of a 200 response. *)
Lemma _request_json_kinds_on_response
    (net : nat -> outcome) (method : string) (s : client) (r : response) :
  result_of (net (calls s)) = Responds r ->
  match verdict_of (fst (_request_json net method s)) with
  | Success => status r = 200
  | Failure k =>
      k = UnauthorizedError /\ unauthorized_status (status r) = true \/
      k = ServiceUnavailable \/ k = UnexpectedResponse \/
      status r = 200 /\
      (k = OtherException /\ json r = Malformed \/
       k = ClientError /\ json r = Unread AiohttpError \/
       k = TimeoutError /\ json r = Unread AsyncioTimeout)
  end.
Proof.
  intros H. unfold calls in H. unfold unauthorized_status.
  run. cbn. rewrite H.
  destruct (auth_cookie r); cbn; repeat (branch; cbn); auto;
    try (match goal with
         | E : _ && _ = true |- _ =>
             apply andb_prop in E; destruct E as [E _]; apply Z.eqb_eq in E
         end);
    try assumption;
    try (right; right; right; split; [assumption|tauto]);
    left; split; auto; rewrite ?orb_true_r; reflexivity.
Qed.

(** C4 (code evaluated where it departs from the claim).  When the
    transport call of [_request_json] fails with an [aiohttp.ClientError],
    the error leaves [_request_json] as it is, not as [ConnectionError];
    [_request_json_with_retry] passes it on after that single attempt.
    The same failure inside [login()], which carries [_convert_errors],
    does become [ConnectionError]. *)
Theorem C4_transport_failure_not_converted :
  fst (_request_json (always broken) "get" logged_in)
  = Raise (Exc ClientError MTransport) /\
  verdict_of (fst (_request_json (always broken) "get" logged_in))
  <> Failure ConnectionError /\
  fst (_request_json_with_retry (always broken) "get" None logged_in)
  = Raise (Exc ClientError MTransport) /\
  requests (snd (_request_json_with_retry (always broken) "get" None logged_in))
  = 1%nat /\
  fst (login (always broken) fresh)
  = Raise (Exc ConnectionError MConnectionTimeout).
Proof.
  vm_compute. repeat split; discriminate.
Qed.

(** The same for every network and state. *)
Lemma _request_json_passes_client_error
    (net : nat -> outcome) (method : string) (s : client) :
  result_of (net (calls s)) = Fails AiohttpError ->
  _request_json net method s
  = (Raise (Exc ClientError MTransport),
     record_call (ApiRequest method) (net (calls s)) s).
Proof.
  intros H. unfold calls in *. run. cbn. rewrite H. reflexivity.
Qed.

(** ** What one login() does to the session *)

(** [login()] makes at most two transport calls, none of them through
    [_request_json].  When it returns, both handshake responses had status
    200 and the session is authenticated; when it raises, the error is one
    of four kinds and the session has not become authenticated. *)
Lemma login_run (net : nat -> outcome) (s : client) :
  let out := login net s in
  (calls s <= calls (snd out) <= calls s + 2)%nat /\
  requests (snd out) = requests s /\
  sleeps (snd out) = sleeps s /\
  match fst out with
  | Ok _ =>
      _is_authenticated (snd out) = true /\
      _null_cookie_count (snd out) = 0 /\
      last_call_unauthorized (snd out) = false /\
      exists o1 o2 r1 r2,
        log (snd out) = (LoginVerify, o2) :: (LoginPost, o1) :: log s /\
        result_of o1 = Responds r1 /\ status r1 = 200 /\
        result_of o2 = Responds r2 /\ status r2 = 200
  | Raise e =>
      login_error (kind_of e) = true /\
      (_is_authenticated (snd out) = true -> _is_authenticated s = true)
  end.
Proof.
  cases; repeat split; auto; try lia;
    try (unfold requests; cbn; reflexivity);
    repeat match goal with
           | H : negb (_ =? 200) = false |- _ =>
               apply negb_false_iff in H; apply Z.eqb_eq in H
           end.
  all: try (unfold last_call_unauthorized; cbn;
            match goal with
            | H : result_of ?o = Responds ?r, E : status ?r = 200
              |- context [result_of ?o] => rewrite H, E; reflexivity
            end).
  all: do 4 eexists; repeat split; eassumption.
Qed.

(** The same, for a login whose outcome is at hand. *)
Lemma login_effects (net : nat -> outcome) (s : client)
    (r : result unit) (s' : client) :
  login net s = (r, s') ->
  (calls s <= calls s' <= calls s + 2)%nat /\
  requests s' = requests s /\
  sleeps s' = sleeps s /\
  match r with
  | Ok _ =>
      _is_authenticated s' = true /\
      _null_cookie_count s' = 0 /\
      last_call_unauthorized s' = false /\
      exists o1 o2 r1 r2,
        log s' = (LoginVerify, o2) :: (LoginPost, o1) :: log s /\
        result_of o1 = Responds r1 /\ status r1 = 200 /\
        result_of o2 = Responds r2 /\ status r2 = 200
  | Raise e =>
      login_error (kind_of e) = true /\
      (_is_authenticated s' = true -> _is_authenticated s = true)
  end.
Proof.
  intros E. pose proof (login_run net s) as L. cbv zeta in L.
  rewrite E in L. exact L.
Qed.

Lemma ensure_authenticated_effects (net : nat -> outcome) (s : client)
    (r : result unit) (s' : client) :
  ensure_authenticated net s = (r, s') ->
  (calls s <= calls s' <= calls s + 2)%nat /\
  requests s' = requests s /\
  sleeps s' = sleeps s /\
  match r with
  | Ok _ => _is_authenticated s' = true
  | Raise e => login_error (kind_of e) = true /\ _is_authenticated s' = false
  end.
Proof.
  unfold ensure_authenticated, bind, get, ret.
  destruct (_is_authenticated s) eqn:A; cbn.
  - intros E. inversion E. subst. repeat split; auto; lia.
  - intros E. apply login_effects in E.
    destruct E as [L1 [L2 [L3 L4]]]. repeat split; try tauto.
    destruct r.
    + tauto.
    + destruct L4 as [K T]. split; [exact K|].
      destruct (_is_authenticated s'); [ | reflexivity].
      rewrite T in A by reflexivity. discriminate.
Qed.

(** ** The coordinator *)

(** An exception that leaves the device loop is no [SomeComfortError]:
    those are all taken by the per-device [except] clause. *)
Lemma refresh_devices_raises (refresh : device -> M bool) (ds : list device) :
  forall readings s ex s',
    refresh_devices refresh ds readings s = (Raise ex, s') ->
    is_SomeComfortError (kind_of ex) = false.
Proof.
  induction ds as [|d rest IH]; intros readings s ex s'; cbn.
  - unfold ret. discriminate.
  - unfold bind, try_. destruct (refresh d s) as [[alive|e] s1].
    + apply IH.
    + destruct (is_SomeComfortError (kind_of e)) eqn:K.
      * apply IH.
      * unfold reraise. intros E. inversion E. subst. exact K.
Qed.

(** A [try] body that raises has raised out of [ensure_authenticated] or
    out of the device loop, and has not touched the error counter. *)
Lemma try_body_raises (net : nat -> outcome) (refresh : device -> M bool)
    (k : coordinator) (ex : exn) (k1 : coordinator) :
  try_body net refresh k = (Raise ex, k1) ->
  (login_error (kind_of ex) = true \/ is_SomeComfortError (kind_of ex) = false) /\
  _consecutive_errors k1 = _consecutive_errors k /\
  _max_consecutive_errors k1 = _max_consecutive_errors k /\
  data k1 = data k /\
  recoveries k1 = recoveries k /\
  restarts k1 = restarts k.
Proof.
  unfold try_body, on_client, bind, get, modify, ret.
  destruct (ensure_authenticated net (client_of k)) as [[u|e] s1] eqn:A;
    apply ensure_authenticated_effects in A; cbn in *.
  - destruct (refresh_devices refresh (devices k) [] s1) as [[readings|e] s2] eqn:R.
    + discriminate.
    + intros E. inversion E. subst. apply refresh_devices_raises in R.
      repeat split; auto.
  - intros E. inversion E. subst. repeat split; try reflexivity. tauto.
Qed.

Lemma try_body_never_unauthorized (net : nat -> outcome)
    (refresh : device -> M bool) (k : coordinator) (ex : exn) (k1 : coordinator) :
  try_body net refresh k = (Raise ex, k1) ->
  kind_of ex <> UnauthorizedError.
Proof.
  intros H. apply try_body_raises in H. destruct H as [[H|H] _];
    intros K; rewrite K in H; discriminate.
Qed.

Lemma dict_get_set (d : device_data) (key : string) (v : bool) :
  dict_get (dict_set d key v) key = Some v.
Proof.
  induction d as [|[k' v'] rest IH]; cbn.
  - rewrite String.eqb_refl. reflexivity.
  - destruct (String.eqb k' key) eqn:E; cbn; rewrite ?E; [rewrite String.eqb_refl|];
      auto.
Qed.

(** A cycle whose [try] body ends with [ConnectionError] counts the error
    and then either escalates or answers with the previous snapshot. *)
Lemma connection_error_cycle (net : nat -> outcome) (refresh : device -> M bool)
    (depth : nat) (k : coordinator) (ex : exn) (k1 : coordinator) :
  try_body net refresh k = (Raise ex, k1) ->
  kind_of ex = ConnectionError ->
  _async_update_data net refresh (S depth) k
  = Some (if _consecutive_errors k + 1 >=? _max_consecutive_errors k
          then Raise (Exc UpdateFailed
                        (MConnectionAfter (_consecutive_errors k + 1) (msg_of ex)))
          else Ok (previous_snapshot k),
          set_consecutive_errors (_consecutive_errors k + 1) k1).
Proof.
  intros B K. unfold _async_update_data. cbn [update_cycle]. rewrite B, K.
  apply try_body_raises in B. destruct B as [_ [C [Mx [D _]]]].
  unfold count_error, stale_data, previous_snapshot, bind, modify, get, ret, raise.
  cbn. rewrite C, Mx.
  destruct (_consecutive_errors k + 1 >=? _max_consecutive_errors k); cbn;
    rewrite ?D; reflexivity.
Qed.

(** C2, as stated, fails: with four consecutive errors recorded and the
    threshold at five, a cycle that fails with [ConnectionError] (here the
    login POST is answered 500) does not return the previous snapshot; it
    raises [UpdateFailed] itself. *)
Lemma C2_fifth_failure_is_fatal :
  exists k',
    _async_update_data (always (answer 500 None)) refresh_ok 1 four_failures
    = Some (Raise (Exc UpdateFailed
                     (MConnectionAfter 5 (MConnectionStatus 500))), k') /\
    _consecutive_errors k' = 5 /\
    ~ (exists k'',
         _async_update_data (always (answer 500 None)) refresh_ok 1 four_failures
         = Some (Ok (previous_snapshot four_failures), k'')).
Proof.
  eexists. split; [vm_compute; reflexivity|]. split; [reflexivity|].
  intros [k'' H]. vm_compute in H. discriminate.
Qed.

(** C2, amended.  With the threshold at five, a cycle that fails with
    [ConnectionError] when four consecutive errors are recorded makes the
    count five and raises [UpdateFailed] in that same [update()]; the
    previous snapshot is returned only while the new count stays below
    five, as from three to four. *)
Theorem C2_connection_error_at_threshold
    (net : nat -> outcome) (refresh : device -> M bool) (depth : nat)
    (k : coordinator) (ex : exn) (k1 : coordinator) :
  try_body net refresh k = (Raise ex, k1) ->
  kind_of ex = ConnectionError ->
  _max_consecutive_errors k = 5 ->
  (_consecutive_errors k = 4 ->
     _async_update_data net refresh (S depth) k
     = Some (Raise (Exc UpdateFailed (MConnectionAfter 5 (msg_of ex))),
             set_consecutive_errors 5 k1)) /\
  (_consecutive_errors k = 3 ->
     _async_update_data net refresh (S depth) k
     = Some (Ok (previous_snapshot k), set_consecutive_errors 4 k1)).
Proof.
  intros B K Mx.
  pose proof (connection_error_cycle net refresh depth k ex k1 B K) as H.
  rewrite Mx in H. split; intros C; rewrite C in H; exact H.
Qed.

Lemma C2_witness :
  _async_update_data (always (answer 500 None)) refresh_ok 1 four_failures
  = Some (Raise (Exc UpdateFailed (MConnectionAfter 5 (MConnectionStatus 500))),
          set_consecutive_errors 5
            (snd (try_body (always (answer 500 None)) refresh_ok four_failures))).
Proof.
  apply (C2_connection_error_at_threshold
           (always (answer 500 None)) refresh_ok 0 four_failures
           (Exc ConnectionError (MConnectionStatus 500))
           (snd (try_body (always (answer 500 None)) refresh_ok four_failures))).
  - vm_compute. reflexivity.
  - reflexivity.
  - reflexivity.
  - reflexivity.
Defined.

Lemma try_body_bookkeeping (net : nat -> outcome) (refresh : device -> M bool)
    (k : coordinator) (r : result device_data) (k1 : coordinator) :
  try_body net refresh k = (r, k1) ->
  recoveries k1 = recoveries k /\ restarts k1 = restarts k.
Proof.
  unfold try_body, on_client, bind, get, modify, ret.
  destruct (ensure_authenticated net (client_of k)) as [[u|e] s1]; cbn.
  - destruct (refresh_devices refresh (devices k) [] s1) as [[readings|e] s2];
      intros E; inversion E; subst; split; reflexivity.
  - intros E; inversion E; subst; split; reflexivity.
Qed.

(** With the [try] body of the source one level of [_async_update_data]
    is always enough: it returns or raises without entering the
    [except UnauthorizedError] clause. *)
Lemma _async_update_data_never_recovers (net : nat -> outcome)
    (refresh : device -> M bool) (depth : nat) (k : coordinator) :
  exists r k',
    _async_update_data net refresh (S depth) k = Some (r, k') /\
    recoveries k' = recoveries k /\
    restarts k' = restarts k.
Proof.
  unfold _async_update_data. cbn [update_cycle].
  destruct (try_body net refresh k) as [[readings|ex] k1] eqn:B.
  - apply try_body_bookkeeping in B. eauto.
  - pose proof (try_body_never_unauthorized _ _ _ _ _ B) as NU.
    apply try_body_bookkeeping in B. destruct B as [B1 B2].
    unfold count_error, stale_data, bind, modify, get, ret, raise.
    destruct (kind_of ex); try congruence; cbn;
      try (destruct (_ >=? _); cbn); eauto.
Qed.

(** ** The device loop and the plain map *)

Lemma NoDup_app_parts {A : Type} (l1 l2 : list A) :
  NoDup (l1 ++ l2)%list ->
  NoDup l1 /\ NoDup l2 /\ (forall a, In a l1 -> ~ In a l2).
Proof.
  induction l1 as [|x l1 IH]; cbn; intros N.
  - repeat split; [constructor | exact N | intros a []].
  - inversion N as [|? ? Nx N1]. subst.
    destruct (IH N1) as [I1 [I2 I3]]. repeat split.
    + constructor; [|exact I1]. intros I. apply Nx. apply in_or_app. tauto.
    + exact I2.
    + intros a [E|I] J; [subst a; apply Nx; apply in_or_app; tauto|].
      apply (I3 a I J).
Qed.

Lemma dict_get_absent (d : device_data) (k : string) :
  ~ In k (map fst d) -> dict_get d k = None.
Proof.
  induction d as [|[k' v'] rest IH]; cbn; [reflexivity|].
  intros N. destruct (String.eqb_spec k' k) as [E|E].
  - exfalso. apply N. left. exact E.
  - apply IH. intros I. apply N. right. exact I.
Qed.

Lemma dict_get_app (d1 d2 : device_data) (k : string) :
  dict_get (d1 ++ d2)%list k
  = match dict_get d1 k with
    | Some v => Some v
    | None => dict_get d2 k
    end.
Proof.
  induction d1 as [|[k' v'] rest IH]; cbn; [reflexivity|].
  destruct (String.eqb k' k); [reflexivity | exact IH].
Qed.

(** Assigning to a key the dict does not hold appends the entry. *)
Lemma dict_set_absent (d : device_data) (k : string) (v : bool) :
  ~ In k (map fst d) -> dict_set d k v = (d ++ [(k, v)])%list.
Proof.
  induction d as [|[k' v'] rest IH]; cbn; [reflexivity|].
  intros N. destruct (String.eqb_spec k' k) as [E|E].
  - exfalso. apply N. left. exact E.
  - rewrite IH; [reflexivity|]. intros I. apply N. right. exact I.
Qed.

Lemma dict_get_set_other (d : device_data) (k : string) (v : bool) (id : string) :
  k <> id -> dict_get (dict_set d k v) id = dict_get d id.
Proof.
  intros N. induction d as [|[k' v'] rest IH]; cbn.
  - destruct (String.eqb_spec k id); [contradiction | reflexivity].
  - destruct (String.eqb_spec k' k) as [E|E]; cbn.
    + subst k'. destruct (String.eqb_spec k id); [contradiction | reflexivity].
    + destruct (String.eqb k' id); auto.
Qed.

(** Entries with distinct keys, none of them in the dict, are appended in
    their order. *)
Lemma recorded_fresh (entries : list (string * bool)) :
  NoDup (map fst entries) ->
  forall readings,
    (forall k, In k (map fst entries) -> ~ In k (map fst readings)) ->
    recorded entries readings = (readings ++ entries)%list.
Proof.
  induction entries as [|[k v] rest IH]; intros N readings D; cbn.
  - rewrite app_nil_r. reflexivity.
  - cbn in N. inversion N as [|? ? Nk Nrest]. subst.
    rewrite dict_set_absent by (apply D; left; reflexivity).
    rewrite IH; [rewrite <- app_assoc; reflexivity | exact Nrest |].
    intros k' I. rewrite map_app, in_app_iff. cbn. intros [J|[J|[]]].
    + apply (D k'); [right; exact I | exact J].
    + subst k'. contradiction.
Qed.

Lemma recorded_app (l1 l2 : list (string * bool)) :
  forall readings,
    recorded (l1 ++ l2)%list readings = recorded l2 (recorded l1 readings).
Proof.
  induction l1 as [|[k v] rest IH]; intros readings; cbn; [reflexivity|].
  apply IH.
Qed.

(** Entries under other keys leave a key as it was. *)
Lemma recorded_other (entries : list (string * bool)) (id : string) :
  ~ In id (map fst entries) ->
  forall readings, dict_get (recorded entries readings) id = dict_get readings id.
Proof.
  induction entries as [|[k v] rest IH]; intros N readings; cbn; [reflexivity|].
  rewrite IH by (intros I; apply N; right; exact I).
  apply dict_get_set_other. intros E. apply N. left. exact E.
Qed.

Lemma device_flags_keys (refresh : device -> M bool) (ds : list device) :
  forall s, map fst (fst (device_flags refresh ds s)) = map deviceid ds.
Proof.
  induction ds as [|d rest IH]; intros s; cbn; [reflexivity|].
  rewrite IH. reflexivity.
Qed.

Lemma device_flags_app (refresh : device -> M bool) (l1 l2 : list device) :
  forall s,
    device_flags refresh (l1 ++ l2)%list s
    = ((fst (device_flags refresh l1 s)
        ++ fst (device_flags refresh l2 (snd (device_flags refresh l1 s))))%list,
       snd (device_flags refresh l2 (snd (device_flags refresh l1 s)))).
Proof.
  induction l1 as [|d rest IH]; intros s; cbn.
  - destruct (device_flags refresh l2 s). reflexivity.
  - rewrite IH. reflexivity.
Qed.

(** A device loop that returns has recorded the flags of the plain map,
    and would have done so from any other dict. *)
Lemma refresh_devices_flags (refresh : device -> M bool) (ds : list device) :
  forall readings s r s',
    refresh_devices refresh ds readings s = (Ok r, s') ->
    forall readings',
      refresh_devices refresh ds readings' s
      = (Ok (recorded (fst (device_flags refresh ds s)) readings'),
         snd (device_flags refresh ds s)).
Proof.
  induction ds as [|d rest IH]; intros readings s r s' H readings'.
  - reflexivity.
  - cbn [refresh_devices device_flags] in *. unfold bind, try_ in *.
    destruct (refresh d s) as [[alive|ex] s1]; cbn [fst snd flag_of recorded].
    + eapply IH. exact H.
    + destruct (is_SomeComfortError (kind_of ex)).
      * eapply IH. exact H.
      * unfold reraise in H. discriminate H.
Qed.

(** With distinct device ids the readings of a loop that started from the
    empty dict are the flags of the plain map, in the order of the
    devices. *)
Lemma refresh_devices_distinct (refresh : device -> M bool) (ds : list device)
    (s : client) (r : device_data) (s' : client) :
  NoDup (map deviceid ds) ->
  refresh_devices refresh ds [] s = (Ok r, s') ->
  r = fst (device_flags refresh ds s) /\
  s' = snd (device_flags refresh ds s) /\
  map fst r = map deviceid ds.
Proof.
  intros N H. pose proof (refresh_devices_flags refresh ds _ _ _ _ H []) as F.
  rewrite H in F. inversion F as [[E1 E2]].
  rewrite recorded_fresh.
  - cbn [app]. rewrite device_flags_keys. repeat split; congruence.
  - rewrite device_flags_keys. exact N.
  - intros k _ [].
Qed.

(** The loop over a list in two parts. *)
Lemma refresh_devices_app (refresh : device -> M bool) (l1 l2 : list device) :
  forall readings s,
    refresh_devices refresh (l1 ++ l2)%list readings s
    = match refresh_devices refresh l1 readings s with
      | (Ok r, s1) => refresh_devices refresh l2 r s1
      | (Raise e, s1) => (Raise e, s1)
      end.
Proof.
  induction l1 as [|d rest IH]; intros readings s; cbn [app refresh_devices].
  - reflexivity.
  - unfold bind, try_. destruct (refresh d s) as [[alive|ex] s1].
    + apply IH.
    + destruct (is_SomeComfortError (kind_of ex)); [apply IH | reflexivity].
Qed.

(** The readings of a cycle in which one device is refused and the loop
    over the devices before it and over those after it returns. *)
Lemma refresh_devices_one_refused (refresh : device -> M bool)
    (before after : list device) (d : device)
    (s0 s1 s2 s3 : client) (rb ra : device_data) (ex : exn) :
  NoDup (map deviceid (before ++ d :: after)%list) ->
  refresh_devices refresh before [] s0 = (Ok rb, s1) ->
  refresh d s1 = (Raise ex, s2) ->
  is_SomeComfortError (kind_of ex) = true ->
  refresh_devices refresh after [] s2 = (Ok ra, s3) ->
  refresh_devices refresh (before ++ d :: after)%list [] s0
  = (Ok (rb ++ (deviceid d, false) :: ra)%list, s3) /\
  map fst (rb ++ (deviceid d, false) :: ra)%list
  = map deviceid (before ++ d :: after)%list /\
  dict_get (rb ++ (deviceid d, false) :: ra)%list (deviceid d) = Some false.
Proof.
  intros N Rb Rd K Ra.
  rewrite map_app in N. cbn [map] in N.
  destruct (NoDup_app_parts _ _ N) as [Nb [Nda Dis]].
  inversion Nda as [|? ? Nd Na]. subst.
  destruct (refresh_devices_distinct _ _ _ _ _ Nb Rb) as [_ [_ Kb]].
  destruct (refresh_devices_distinct _ _ _ _ _ Na Ra) as [Fa [Sa Ka]].
  assert (Db : ~ In (deviceid d) (map fst rb)).
  { rewrite Kb. intros I. apply (Dis _ I). left. reflexivity. }
  split; [|split].
  - rewrite refresh_devices_app, Rb. cbn [refresh_devices].
    unfold bind, try_. rewrite Rd, K.
    rewrite (refresh_devices_flags refresh after _ _ _ _ Ra).
    rewrite <- Fa, <- Sa. rewrite dict_set_absent by exact Db.
    rewrite recorded_fresh.
    + rewrite <- app_assoc. reflexivity.
    + rewrite Ka. exact Na.
    + intros k I. rewrite map_app, in_app_iff. cbn. rewrite Kb.
      rewrite Ka in I. intros [J|[J|[]]].
      * apply (Dis _ J). right. exact I.
      * subst k. contradiction.
  - rewrite !map_app. cbn. rewrite Kb, Ka. reflexivity.
  - rewrite dict_get_app, (dict_get_absent rb _ Db). cbn.
    rewrite String.eqb_refl. reflexivity.
Qed.

(** C10.  In every poll cycle an [UnauthorizedError] raised by one
    device's [refresh()] is taken by that device's own handler.  When the
    session is authenticated (or logs in), the device ids are distinct and
    the loop gets through the devices before and after the refused one,
    the cycle returns the readings of the devices before it, then the
    refused device with [available = False], then the readings of the
    devices after it, refreshed from the client as the refused refresh
    left it; every device has its entry, the error counter is reset to 0
    and the entity of the refused device reads [available = False].
    Whatever the device list, the refused device is recorded and the loop
    goes on with the next; the [try] body never raises
    [UnauthorizedError], and [_async_update_data] never enters its
    re-login-and-restart clause. *)
Theorem C10_device_unauthorized_stays_in_device_handler
    (net : nat -> outcome) (refresh : device -> M bool) :
  (forall depth k u s0 before d after rb s1 ex s2 ra s3,
      ensure_authenticated net (client_of k) = (Ok u, s0) ->
      devices k = (before ++ d :: after)%list ->
      NoDup (map deviceid (devices k)) ->
      refresh_devices refresh before [] s0 = (Ok rb, s1) ->
      refresh d s1 = (Raise ex, s2) ->
      kind_of ex = UnauthorizedError ->
      refresh_devices refresh after [] s2 = (Ok ra, s3) ->
      let readings := (rb ++ (deviceid d, false) :: ra)%list in
      let k' := set_consecutive_errors 0 (set_client s3 k) in
      _async_update_data net refresh (S depth) k = Some (Ok readings, k') /\
      map fst readings = map deviceid (devices k) /\
      dict_get readings (deviceid d) = Some false /\
      entity_available (set_data (Some readings) k') (deviceid d) = false /\
      recoveries k' = recoveries k /\
      restarts k' = restarts k) /\
  (forall d rest readings s ex s1,
      refresh d s = (Raise ex, s1) ->
      kind_of ex = UnauthorizedError ->
      refresh_devices refresh (d :: rest) readings s
      = refresh_devices refresh rest (dict_set readings (deviceid d) false) s1 /\
      dict_get (dict_set readings (deviceid d) false) (deviceid d) = Some false) /\
  (forall k ex k1,
      try_body net refresh k = (Raise ex, k1) ->
      kind_of ex <> UnauthorizedError) /\
  (forall depth k,
      exists r k',
        _async_update_data net refresh (S depth) k = Some (r, k') /\
        recoveries k' = recoveries k /\
        restarts k' = restarts k).
Proof.
  split; [|split; [|split]].
  - intros depth k u s0 before d after rb s1 ex s2 ra s3 EA D N Rb Rd K Ra
           readings k'.
    rewrite D in N.
    assert (K' : is_SomeComfortError (kind_of ex) = true) by (rewrite K; reflexivity).
    destruct (refresh_devices_one_refused refresh before after d s0 s1 s2 s3
                rb ra ex N Rb Rd K' Ra) as [L [Keys G]].
    fold readings in L, Keys, G.
    split; [|split; [|split; [|split; [|split]]]].
    + unfold _async_update_data. cbn [update_cycle].
      cbv [try_body on_client bind get modify ret]. rewrite EA.
      cbn [client_of devices set_client]. rewrite D, L. reflexivity.
    + rewrite D. exact Keys.
    + exact G.
    + unfold entity_available. cbn [data set_data].
      destruct readings as [|e rest] eqn:R; [discriminate G|].
      rewrite G. reflexivity.
    + reflexivity.
    + reflexivity.
  - intros d rest readings s ex s1 R K. split.
    + cbn [refresh_devices]. unfold bind, try_. rewrite R, K. reflexivity.
    + apply dict_get_set.
  - intros k ex k1. apply try_body_never_unauthorized.
  - intros depth k. apply _async_update_data_never_recovers.
Qed.

Lemma C10_witness :
  let net := refused_at 3 in
  let k := new_coordinator logged_in [thermostat; upstairs; basement] in
  let s1 := snd (refresh_bare net thermostat logged_in) in
  let s2 := snd (refresh_bare net upstairs s1) in
  let s3 := snd (refresh_bare net basement s2) in
  let readings := [("1234", true); ("5678", false); ("9012", true)] in
  let k' := set_consecutive_errors 0 (set_client s3 k) in
  _async_update_data net (refresh_bare net) 1 k = Some (Ok readings, k') /\
  map fst readings = map deviceid (devices k) /\
  dict_get readings "5678" = Some false /\
  entity_available (set_data (Some readings) k') "5678" = false /\
  recoveries k' = recoveries k /\
  restarts k' = restarts k.
Proof.
  intros net k s1 s2 s3 readings k'.
  apply (proj1 (C10_device_unauthorized_stays_in_device_handler
                  net (refresh_bare net))
           0%nat k tt logged_in [thermostat] upstairs [basement]
           [("1234", true)] s1 (Exc UnauthorizedError MSessionExpired) s2
           [("9012", true)] s3).
  - vm_compute. reflexivity.
  - reflexivity.
  - repeat constructor; cbn; intuition discriminate.
  - vm_compute. reflexivity.
  - vm_compute. reflexivity.
  - reflexivity.
  - vm_compute. reflexivity.
Defined.

(** ** Restarts of one invocation of [_async_update_data] *)

Lemma kind_eqb_eq (a b : kind) : kind_eqb a b = true -> a = b.
Proof. destruct a, b; cbn; intros H; congruence. Qed.

(** One level of the [except UnauthorizedError] clause when the login
    succeeds: the method is entered again, and only an [AuthError] coming
    out of it is turned into [UpdateFailed]. *)
Lemma update_cycle_restart (net : nat -> outcome)
    (body : Co coordinator device_data) (depth : nat)
    (k : coordinator) (ex : exn) (k1 : coordinator) (u : unit) (k2 : coordinator) :
  body k = (Raise ex, k1) ->
  kind_of ex = UnauthorizedError ->
  on_client (login net) (note_recovery k1) = (Ok u, k2) ->
  update_cycle net body (S depth) k
  = match update_cycle net body depth (note_restart k2) with
    | None => None
    | Some (Ok readings, k3) => Some (Ok readings, k3)
    | Some (Raise auth_ex, k3) =>
        match kind_of auth_ex with
        | AuthError =>
            Some ((count_error ;;
                   raise UpdateFailed (MReauthFailed (msg_of auth_ex))) k3)
        | _ => Some (Raise auth_ex, k3)
        end
    end.
Proof.
  intros B K L.
  destruct depth; cbn [update_cycle]; rewrite B, K, L; reflexivity.
Qed.



(** ** One request and the retry loop around it *)

(** [_request_json] makes exactly one transport call.  It clears
    [_is_authenticated] on a 401 or 403 and otherwise leaves it alone; a
    returned value is the body of a response with status 200. *)
Lemma _request_json_effects (net : nat -> outcome) (method : string)
    (s : client) (r : result returned) (s' : client) :
  _request_json net method s = (r, s') ->
  calls s' = S (calls s) /\
  requests s' = S (requests s) /\
  sleeps s' = sleeps s /\
  _is_authenticated s'
  = _is_authenticated s && negb (last_call_unauthorized s') /\
  match r with
  | Ok v =>
      exists out resp,
        log s' = (ApiRequest method, out) :: log s /\
        result_of out = Responds resp /\
        status resp = 200 /\
        returned_of resp = Ok v
  | Raise e => request_error (kind_of e) = true
  end.
Proof.
  unfold returned_of.
  cases; same_pair; repeat split; auto;
    try (unfold last_call_unauthorized, unauthorized_status; cbn;
         match goal with
         | H : result_of ?o = _ |- context [result_of ?o] => rewrite H
         end;
         repeat match goal with
                | H : (_ =? _) = _ |- _ => rewrite H
                | H : (_ =? _) && _ = true |- _ =>
                    apply andb_prop in H; destruct H as [H _];
                    apply Z.eqb_eq in H; rewrite H
                end;
         cbn; rewrite ?andb_true_r, ?andb_false_r, ?orb_true_r; reflexivity).
  all: try (do 2 eexists; repeat split; try eassumption;
            try (match goal with
                 | H : (?x =? 200) && _ = true |- ?x = 200 =>
                     apply andb_prop in H; destruct H as [H _];
                     apply Z.eqb_eq in H; exact H
                 end);
            repeat match goal with
                   | H : ?c = _ |- context [?c] => rewrite H
                   end;
            reflexivity).
Qed.

Lemma session_invariant_after (s s' : client) :
  _is_authenticated s' = false \/ last_call_unauthorized s' = false ->
  session_invariant s'.
Proof.
  unfold session_invariant. intros [H|H] A; [rewrite H in A; discriminate | exact H].
Qed.

Lemma _request_json_invariant (net : nat -> outcome) (method : string)
    (s : client) (r : result returned) (s' : client) :
  _request_json net method s = (r, s') -> session_invariant s'.
Proof.
  intros E. apply _request_json_effects in E. destruct E as [_ [_ [_ [A _]]]].
  unfold session_invariant. intros T. rewrite T in A.
  destruct (last_call_unauthorized s'); [|reflexivity].
  rewrite andb_false_r in A. discriminate.
Qed.

(** A login started on an unauthenticated session leaves the invariant in
    place however it ends. *)
Lemma login_invariant (net : nat -> outcome) (s : client)
    (r : result unit) (s' : client) :
  _is_authenticated s = false ->
  login net s = (r, s') -> session_invariant s'.
Proof.
  intros A E. apply login_effects in E. destruct E as [_ [_ [_ E]]].
  destruct r.
  - apply (session_invariant_after s). right. tauto.
  - apply (session_invariant_after s). left. destruct E as [_ T].
    destruct (_is_authenticated s'); [|reflexivity].
    rewrite T in A by reflexivity. discriminate.
Qed.

Lemma ensure_authenticated_invariant (net : nat -> outcome) (s : client)
    (r : result unit) (s' : client) :
  session_invariant s ->
  ensure_authenticated net s = (r, s') -> session_invariant s'.
Proof.
  unfold ensure_authenticated, bind, get, ret. intros I.
  destruct (_is_authenticated s) eqn:A; cbn.
  - intros E. inversion E. subst. exact I.
  - apply login_invariant. exact A.
Qed.

Lemma backoff_effects (attempt retries : Z) (s : client) :
  exists s',
    backoff attempt retries s = (Ok tt, s') /\
    log s' = log s /\
    _is_authenticated s' = _is_authenticated s.
Proof.
  unfold backoff, sleep, modify, ret.
  destruct (attempt <? retries - 1); eexists; repeat split.
Qed.

Lemma calls_of_log (s s' : client) : log s' = log s -> calls s' = calls s.
Proof. unfold calls. intros H. rewrite H. reflexivity. Qed.

Lemma requests_of_log (s s' : client) : log s' = log s -> requests s' = requests s.
Proof. unfold requests. intros H. rewrite H. reflexivity. Qed.

Lemma invariant_of_log (s s' : client) :
  log s' = log s -> _is_authenticated s' = _is_authenticated s ->
  session_invariant s -> session_invariant s'.
Proof.
  unfold session_invariant, last_call_unauthorized. intros L A I.
  rewrite L, A. exact I.
Qed.

Ltac continue_after_backoff IH E K attempt retries sb :=
  let sc := fresh "sc" in
  let B := fresh "B" in
  let Lc := fresh "Lc" in
  let Ac := fresh "Ac" in
  destruct (backoff_effects attempt retries sb) as [sc [B [Lc Ac]]];
  rewrite B in E; apply IH in E;
  [ rewrite (calls_of_log _ _ Lc), (requests_of_log _ _ Lc) in E;
    destruct E as [? [? [E3 ?]]];
    repeat split; try lia; auto;
    intros ?; apply E3; apply (invariant_of_log sb); auto
  | let e0 := fresh "e" in
    let H0 := fresh "H" in
    intros e0 H0; inversion H0; subst; rewrite K; reflexivity ].

Ltac passes_on E K :=
  inversion E; subst; repeat split; try lia; auto;
  cbn; rewrite K; reflexivity.

Lemma retry_loop_effects (net : nat -> outcome) (method : string) (retries : Z) :
  forall (remaining : nat) (attempt : Z) (last_error : option exn)
         (s : client) (r : result returned) (s' : client),
    (forall e, last_error = Some e -> terminal_error (kind_of e) = true) ->
    retry_loop net method retries remaining attempt last_error s = (r, s') ->
    (requests s' <= requests s + remaining)%nat /\
    (calls s' <= calls s + 5 * remaining)%nat /\
    (session_invariant s -> session_invariant s') /\
    ends_well method r s'.
Proof.
  induction remaining as [|rest IH]; intros attempt last_error s r s' HL E.
  - cbn in E. destruct last_error as [e|]; unfold reraise, raise in E;
      inversion E; subst; repeat split; auto; try lia.
    cbn. apply HL. reflexivity.
  - cbn [retry_loop] in E. unfold bind, try_, modify, reraise, ret in E.
    destruct (ensure_authenticated net s) as [[u|e] sa] eqn:EA;
      pose proof (fun I => ensure_authenticated_invariant net s _ sa I EA) as Ia;
      apply ensure_authenticated_effects in EA;
      destruct EA as [Ca [Ra [_ Ka]]].
    + destruct (_request_json net method sa) as [[v|e] sb] eqn:RJ;
        pose proof (_request_json_invariant _ _ _ _ _ RJ) as Ib;
        apply _request_json_effects in RJ;
        destruct RJ as [Cb [Rb [_ [_ Kb]]]].
      * inversion E; subst. repeat split; try lia; [intros _; exact Ib|].
        destruct Kb as [out [resp [L K]]]. exists out, resp, (log sa). tauto.
      * destruct (kind_of e) eqn:K; try discriminate Kb.
        -- continue_after_backoff IH E K attempt retries sb.
        -- passes_on E K.
        -- destruct (login net (set_authenticated false sb)) as [[u2|e2] sc] eqn:LG;
             pose proof (login_invariant net (set_authenticated false sb) _ sc eq_refl LG) as Ic;
             apply login_effects in LG; destruct LG as [Cc [Rc [_ Kc]]];
             change (calls (set_authenticated false sb)) with (calls sb) in Cc;
             change (requests (set_authenticated false sb)) with (requests sb) in Rc.
           ++ apply IH in E; [|exact HL].
              destruct E as [? [? [E3 ?]]]. repeat split; try lia; auto.
           ++ destruct Kc as [Kc _].
              destruct (kind_of e2) eqn:K2; try discriminate Kc.
              ** passes_on E K2.
              ** continue_after_backoff IH E K2 attempt retries sc.
              ** continue_after_backoff IH E K2 attempt retries sc.
              ** passes_on E K2.
        -- passes_on E K.
        -- passes_on E K.
        -- passes_on E K.
    + destruct Ka as [Ka Aa].
      destruct (kind_of e) eqn:K; try discriminate Ka.
      * continue_after_backoff IH E K attempt retries sa.
      * passes_on E K.
      * passes_on E K.
      * passes_on E K.
Qed.

(** ** _request_json_with_retry *)

(** C1, as stated, fails: the attempts are bounded, the transport calls of
    the logins are not counted in them.  A logged-in client whose session
    has expired meets the statuses 401, 200, 401, 200, 401: the request is
    refused, the re-login passes its first step and is refused at the
    second, the next attempt logs in again with the same result.  The call
    ends with [AuthError] after five transport calls, with the default of
    three attempts. *)
Lemma C1_five_transport_calls_in_three_attempts :
  let out := _request_json_with_retry (alternating 401 200) "get" None logged_in in
  _retry_count logged_in = 3 /\
  fst out = Raise (Exc AuthError (MVerificationFailed 401)) /\
  calls (snd out) = (calls logged_in + 5)%nat /\
  ~ (calls (snd out) <= calls logged_in + 3)%nat.
Proof.
  vm_compute. repeat split; try reflexivity.
  intros H. repeat apply le_S_n in H. inversion H.
Qed.

(** C1, amended.  Whatever the transport answers, [_request_json_with_retry]
    ends: it returns the body of a response of status 200 received by its
    last transport call, or fails with [AuthError], [APIRateLimited],
    [ConnectionError], [ServiceUnavailable], [UnexpectedResponse], the
    generic [SomeComfortError], an unconverted transport exception or the
    error of reading or decoding the body of a 200 response
    ([json.JSONDecodeError] among them).  It issues at most [retries]
    requests of its own and, the transport calls of [login()] included, at
    most [5 * retries] transport calls. *)
Theorem C1_request_with_retry_terminates_within_bounds
    (net : nat -> outcome) (method : string) (retry_count : option Z)
    (s : client) :
  let retries := match retry_count with
                 | Some n => n
                 | None => _retry_count s
                 end in
  let out := _request_json_with_retry net method retry_count s in
  (requests (snd out) <= requests s + Z.to_nat retries)%nat /\
  (calls (snd out) <= calls s + 5 * Z.to_nat retries)%nat /\
  ends_well method (fst out) (snd out).
Proof.
  intros retries out.
  destruct out as [r s'] eqn:E. subst out.
  unfold _request_json_with_retry, bind, get in E. fold retries in E.
  apply retry_loop_effects in E; [|discriminate].
  cbn [fst snd]. tauto.
Qed.

(** C5 (code evaluated where it departs from the claim).  A logged-in
    client is answered 401 to its request and 500 to the POST of the
    re-login that follows: the [ConnectionError] of that login leaves
    [_request_json_with_retry] at once, after one request of three and
    without any back-off.  The same 500 met by the login of
    [ensure_authenticated] is retried until the attempts are used up. *)
Theorem C5_connection_error_of_relogin_escapes :
  let net := script [answer 200 None; answer 200 None; answer 401 None]
                    (answer 500 None) in
  let out := _request_json_with_retry net "get" None logged_in in
  let sibling := _request_json_with_retry (always (answer 500 None)) "get" None fresh in
  fst out = Raise (Exc ConnectionError (MConnectionStatus 500)) /\
  requests (snd out) = 1%nat /\
  calls (snd out) = (calls logged_in + 2)%nat /\
  sleeps (snd out) = [] /\
  fst sibling = Raise (Exc ConnectionError (MConnectionStatus 500)) /\
  calls (snd sibling) = 3%nat /\
  sleeps (snd sibling) = [2; 1].
Proof.
  vm_compute. repeat split; reflexivity.
Qed.

(** ** The session invariant *)

(** C7, as stated, fails: after a successful login the four page requests
    of [_get_locations] are all answered 401, and [_is_authenticated] is
    still set. *)
Lemma C7_unauthorized_answer_leaves_flag :
  let s' := snd (_get_locations (always refusal) logged_in) in
  _is_authenticated logged_in = true /\
  calls s' = (calls logged_in + 4)%nat /\
  last_call_unauthorized s' = true /\
  _is_authenticated s' = true /\
  ~ session_invariant s'.
Proof.
  vm_compute. repeat split; try reflexivity.
  intros H. specialize (H eq_refl). discriminate H.
Qed.

(** C7, amended.  (1) [_request_json] clears [_is_authenticated] exactly
    when its response has status 401 or 403.  (2) [_is_authenticated] is
    set only by a [login()] that returns, after two handshake responses of
    status 200; a [login()] that raises never sets it.  (3) The invariant
    "authenticated implies the last transport call was not answered 401 or
    403" is kept by [_request_json_with_retry]. *)
Theorem C7_authenticated_flag_transitions (net : nat -> outcome) :
  (forall method s,
      let s' := snd (_request_json net method s) in
      _is_authenticated s'
      = _is_authenticated s && negb (last_call_unauthorized s')) /\
  (forall s,
      let out := login net s in
      match fst out with
      | Ok _ =>
          _is_authenticated (snd out) = true /\
          exists o1 o2 r1 r2,
            log (snd out) = (LoginVerify, o2) :: (LoginPost, o1) :: log s /\
            result_of o1 = Responds r1 /\ status r1 = 200 /\
            result_of o2 = Responds r2 /\ status r2 = 200
      | Raise _ =>
          _is_authenticated (snd out) = true -> _is_authenticated s = true
      end) /\
  (forall method retry_count s,
      session_invariant s ->
      session_invariant (snd (_request_json_with_retry net method retry_count s))).
Proof.
  split; [|split].
  - intros method s s'. subst s'.
    destruct (_request_json net method s) as [r s'] eqn:E.
    apply _request_json_effects in E. cbn [snd]. tauto.
  - intros s out. subst out.
    destruct (login net s) as [r s'] eqn:E.
    apply login_effects in E. cbn [fst snd].
    destruct r; tauto.
  - intros method retry_count s I.
    destruct (_request_json_with_retry net method retry_count s) as [r s'] eqn:E.
    unfold _request_json_with_retry, bind, get in E.
    apply retry_loop_effects in E; [|discriminate].
    cbn [snd]. tauto.
Qed.

Lemma C7_witness :
  session_invariant
    (snd (_request_json_with_retry (alternating 401 200) "get" None logged_in)).
Proof.
  apply (proj2 (proj2 (C7_authenticated_flag_transitions (alternating 401 200)))).
  intros _. vm_compute. reflexivity.
Defined.

(** ** Which errors the retry loop retries *)

(** A [ConnectionError] or [ServiceUnavailable] raised by the [try] part of
    an attempt ([ensure_authenticated] and the request) is recorded and
    followed by the back-off and the next attempt. *)
Lemma retry_loop_retries_transient (net : nat -> outcome) (method : string)
    (retries : Z) (rest : nat) (attempt : Z) (last_error : option exn)
    (s : client) (e : exn) (s1 : client) :
  (ensure_authenticated net ;; _request_json net method) s = (Raise e, s1) ->
  kind_of e = ConnectionError \/ kind_of e = ServiceUnavailable ->
  retry_loop net method retries (S rest) attempt last_error s
  = (backoff attempt retries ;;
     retry_loop net method retries rest (attempt + 1) (Some e)) s1.
Proof.
  intros H K. cbn [retry_loop]. unfold bind at 1. unfold try_ at 1.
  rewrite H. destruct K as [K|K]; rewrite K; reflexivity.
Qed.

(** A [ConnectionError] raised by the login of the [except
    UnauthorizedError] clause leaves the loop whatever the number of
    attempts still to come. *)
Lemma retry_loop_relogin_connection_error (net : nat -> outcome)
    (method : string) (retries : Z) (rest : nat) (attempt : Z)
    (last_error : option exn) (s : client) (e : exn) (s1 : client)
    (e2 : exn) (s2 : client) :
  (ensure_authenticated net ;; _request_json net method) s = (Raise e, s1) ->
  kind_of e = UnauthorizedError ->
  login net (set_authenticated false s1) = (Raise e2, s2) ->
  kind_of e2 = ConnectionError ->
  retry_loop net method retries (S rest) attempt last_error s = (Raise e2, s2).
Proof.
  intros H K L K2. cbn [retry_loop]. unfold bind at 1. unfold try_ at 1.
  rewrite H, K. unfold bind, modify, try_. rewrite L, K2. reflexivity.
Qed.

(** * Further properties of the client *)

(** ** login() and the null-cookie counter *)

(** X1.  Every [AuthError] of [login()], whether from a 401 at the POST, a
    401 at the verification or an empty auth cookie, counts one more null
    cookie, clears [_is_authenticated] and, once the count has reached
    [MAX_LOGIN_ATTEMPTS], moves [_next_login] ten minutes past the time of
    the failure. *)
Theorem login_auth_error_counts (net : nat -> outcome) (s : client)
    (e : exn) (s' : client) :
  login net s = (Raise e, s') ->
  kind_of e = AuthError ->
  _null_cookie_count s' = _null_cookie_count s + 1 /\
  _is_authenticated s' = false /\
  (calls s < calls s' <= calls s + 2)%nat /\
  _next_login s' = (if _null_cookie_count s + 1 >=? MAX_LOGIN_ATTEMPTS
                    then now s' + MIN_LOGIN_TIME
                    else _next_login s).
Proof.
  cases; same_pair; intros K; try discriminate K; repeat split;
    try reflexivity; try lia;
    match goal with H : _ = ?b |- _ = (if _ then _ else _) => rewrite H end;
    reflexivity.
Qed.

Lemma login_auth_error_counts_witness :
  let out := login (always (answer 401 None)) (set_null_cookie_count 2 fresh) in
  _null_cookie_count (snd out) = 3 /\
  _is_authenticated (snd out) = false /\
  _next_login (snd out) = now (snd out) + MIN_LOGIN_TIME.
Proof.
  intros out.
  destruct (login_auth_error_counts
              (always (answer 401 None)) (set_null_cookie_count 2 fresh)
              (Exc AuthError MLoginFailed) (snd out))
    as [Hc [Ha [_ Hn]]];
    [ vm_compute; reflexivity | reflexivity | ].
  split; [exact Hc|]. split; [exact Ha | exact Hn].
Defined.

(** X2.  A [login()] that fails with anything but [AuthError] (rate
    limit, unexpected status, transport failure) changes neither the
    null-cookie counter nor [_next_login] nor [_is_authenticated]. *)
Theorem login_other_errors_leave_session (net : nat -> outcome) (s : client)
    (e : exn) (s' : client) :
  login net s = (Raise e, s') ->
  kind_of e <> AuthError ->
  _null_cookie_count s' = _null_cookie_count s /\
  _next_login s' = _next_login s /\
  _is_authenticated s' = _is_authenticated s.
Proof.
  cases; same_pair; intros K; try (exfalso; apply K; reflexivity);
    repeat split.
Qed.

Lemma login_other_errors_leave_session_witness :
  let out := login (always (answer 503 None)) (set_null_cookie_count 2 logged_in) in
  _null_cookie_count (snd out) = 2 /\
  _next_login (snd out) = 0 /\
  _is_authenticated (snd out) = true.
Proof.
  intros out.
  apply (login_other_errors_leave_session
           (always (answer 503 None)) (set_null_cookie_count 2 logged_in)
           (Exc ConnectionError (MConnectionStatus 503)) (snd out)).
  - vm_compute. reflexivity.
  - discriminate.
Defined.

(** A client that [ensure_authenticated] or [login()] has just left
    authenticated passes [ensure_authenticated] untouched. *)
Lemma ensure_authenticated_again (net net' : nat -> outcome) (s : client)
    (u : unit) (s' : client) :
  ensure_authenticated net s = (Ok u, s') \/ login net s = (Ok u, s') ->
  ensure_authenticated net' s' = (Ok tt, s').
Proof.
  intros H.
  assert (A : _is_authenticated s' = true).
  { destruct H as [H|H].
    - apply ensure_authenticated_effects in H. tauto.
    - apply login_effects in H. tauto. }
  unfold ensure_authenticated, bind, get, ret. rewrite A. reflexivity.
Qed.

(** X3.  [ensure_authenticated] is idempotent: once it has returned, and
    likewise right after a [login()] that returned, calling it again on
    any network returns at once, with no transport call and the client
    untouched. *)
Theorem ensure_authenticated_idempotent (net net' : nat -> outcome) (s : client)
    (u : unit) (s' : client) :
  ensure_authenticated net s = (Ok u, s') \/ login net s = (Ok u, s') ->
  ensure_authenticated net' s' = (Ok tt, s').
Proof. apply ensure_authenticated_again. Qed.

Lemma ensure_authenticated_idempotent_witness :
  ensure_authenticated (always broken) logged_in = (Ok tt, logged_in).
Proof.
  apply (ensure_authenticated_idempotent
           (always (answer 200 None)) (always broken) fresh tt logged_in).
  right. vm_compute. reflexivity.
Defined.

(** ** _request_json_with_retry *)

(** X4.  With a retry count of zero or less the loop body never runs: no
    transport call, no login, the client untouched, and the generic
    [SomeComfortError] of exhausted retries. *)
Theorem no_attempts_no_request (net : nat -> outcome) (method : string)
    (n : Z) (s : client) :
  n <= 0 ->
  _request_json_with_retry net method (Some n) s
  = (Raise (Exc SomeComfortError MRetriesFailed), s).
Proof.
  intros H. unfold _request_json_with_retry, bind, get.
  replace (Z.to_nat n) with 0%nat by lia. reflexivity.
Qed.

Lemma no_attempts_no_request_witness :
  _request_json_with_retry (always (answer 200 None)) "get" (Some 0) logged_in
  = (Raise (Exc SomeComfortError MRetriesFailed), logged_in).
Proof.
  apply no_attempts_no_request. lia.
Defined.

Lemma unavailable_status_tests (r : response) :
  unavailable_status r = true ->
  (status r =? 200) = false /\ (status r =? 401) = false /\
  (status r =? 403) = false.
Proof.
  unfold unavailable_status. intros H.
  repeat split; apply Z.eqb_neq; intros E; rewrite E in H; discriminate H.
Qed.

Lemma attempt_unavailable (net : nat -> outcome) (method : string)
    (s : client) (r : response) :
  _is_authenticated s = true ->
  result_of (net (calls s)) = Responds r ->
  unavailable_status r = true ->
  exists s1,
    (ensure_authenticated net ;; _request_json net method) s
    = (Raise (Exc ServiceUnavailable (MServiceUnavailable (status r))), s1) /\
    calls s1 = S (calls s) /\
    requests s1 = S (requests s) /\
    sleeps s1 = sleeps s /\
    _is_authenticated s1 = true.
Proof.
  intros A H U. destruct (unavailable_status_tests r U) as [T200 [T401 T403]].
  unfold unavailable_status in U.
  run. cbn. rewrite A. cbn. unfold calls in H. rewrite H.
  destruct (auth_cookie r); cbn; rewrite T200, T401, T403, U; cbn;
    eexists; repeat split; auto.
Qed.

Lemma backoff_schedule_step (a m : nat) (rest : list Z) :
  (backoff_schedule (S a) m ++ (RETRY_BACKOFF_BASE ^ Z.of_nat a :: rest)
   = backoff_schedule a (S m) ++ rest)%list.
Proof.
  unfold backoff_schedule. cbn [seq map rev].
  rewrite <- app_assoc. reflexivity.
Qed.

Lemma retry_loop_all_unavailable (net : nat -> outcome) (method : string) :
  forall (m a : nat) (last_error : option exn) (s : client),
    _is_authenticated s = true ->
    (forall i, (calls s <= i)%nat ->
       exists r, result_of (net i) = Responds r /\ unavailable_status r = true) ->
    exists r s',
      result_of (net (calls s + m)%nat) = Responds r /\
      retry_loop net method (Z.of_nat (a + S m)) (S m) (Z.of_nat a) last_error s
      = (Raise (Exc ServiceUnavailable (MServiceUnavailable (status r))), s') /\
      calls s' = (calls s + S m)%nat /\
      requests s' = (requests s + S m)%nat /\
      sleeps s' = (backoff_schedule a m ++ sleeps s)%list /\
      _is_authenticated s' = true.
Proof.
  induction m as [|m IH]; intros a last_error s A N.
  - destruct (N (calls s) (le_n _)) as [r [Hr U]].
    destruct (attempt_unavailable net method s r A Hr U)
      as [s1 [E [C [R [Sl A1]]]]].
    exists r, s1. split; [rewrite Nat.add_0_r; exact Hr|].
    split.
    + rewrite (retry_loop_retries_transient _ _ _ _ _ _ _ _ _ E)
        by (right; reflexivity).
      unfold backoff, bind, ret.
      replace (Z.of_nat a <? Z.of_nat (a + 1) - 1) with false
        by (symmetry; apply Z.ltb_ge; lia).
      reflexivity.
    + repeat split; auto; lia.
  - destruct (N (calls s) (le_n _)) as [r [Hr U]].
    destruct (attempt_unavailable net method s r A Hr U)
      as [s1 [E [C [R [Sl A1]]]]].
    destruct (IH (S a)
                (Some (Exc ServiceUnavailable (MServiceUnavailable (status r))))
                (record_sleep (RETRY_BACKOFF_BASE ^ Z.of_nat a) s1))
      as [r' [s' [Hr' [E' [C' [R' [Sl' A']]]]]]].
    + exact A1.
    + intros i Hi. apply N. change (calls (record_sleep (RETRY_BACKOFF_BASE ^ Z.of_nat a) s1)) with (calls s1) in Hi. lia.
    + change (calls (record_sleep (RETRY_BACKOFF_BASE ^ Z.of_nat a) s1))
        with (calls s1) in *.
      change (requests (record_sleep (RETRY_BACKOFF_BASE ^ Z.of_nat a) s1))
        with (requests s1) in *.
      change (sleeps (record_sleep (RETRY_BACKOFF_BASE ^ Z.of_nat a) s1))
        with (RETRY_BACKOFF_BASE ^ Z.of_nat a :: sleeps s1) in *.
      exists r', s'. split.
      { replace (calls s + S m)%nat with (calls s1 + m)%nat by lia. exact Hr'. }
      split.
      { rewrite (retry_loop_retries_transient _ _ _ _ _ _ _ _ _ E)
          by (right; reflexivity).
        unfold backoff, bind, sleep, modify.
        replace (Z.of_nat a <? Z.of_nat (a + S (S m)) - 1) with true
          by (symmetry; apply Z.ltb_lt; lia).
        replace (Z.of_nat (a + S (S m))) with (Z.of_nat (S a + S m)) by lia.
        replace (Z.of_nat a + 1) with (Z.of_nat (S a)) by lia.
        exact E'. }
      repeat split; try lia; auto.
      rewrite Sl', Sl. apply backoff_schedule_step.
Qed.

(** X5.  When every answer is a 500, 502 or 503, an authenticated client
    with [n + 1] attempts makes exactly [n + 1] requests and no login,
    sleeps 1, 2, 4, .. seconds after each attempt but the last, and fails
    with the [ServiceUnavailable] of the last response. *)
Theorem retry_exhaustion_schedule (net : nat -> outcome) (method : string)
    (n : nat) (s : client) :
  _is_authenticated s = true ->
  (forall i, (calls s <= i)%nat ->
     exists r, result_of (net i) = Responds r /\ unavailable_status r = true) ->
  let out := _request_json_with_retry net method (Some (Z.of_nat (S n))) s in
  exists r,
    result_of (net (calls s + n)%nat) = Responds r /\
    fst out = Raise (Exc ServiceUnavailable (MServiceUnavailable (status r))) /\
    calls (snd out) = (calls s + S n)%nat /\
    requests (snd out) = (requests s + S n)%nat /\
    sleeps (snd out) = (backoff_schedule 0 n ++ sleeps s)%list /\
    _is_authenticated (snd out) = true.
Proof.
  intros A N out. subst out.
  destruct (retry_loop_all_unavailable net method n 0 None s A N)
    as [r [s' [Hr [E H]]]].
  exists r. split; [exact Hr|].
  unfold _request_json_with_retry, bind, get.
  rewrite Nat2Z.id. cbn [Nat.add] in E. change (Z.of_nat 0) with 0 in E.
  rewrite E. cbn [fst snd]. split; [reflexivity | exact H].
Qed.

Lemma retry_exhaustion_schedule_witness :
  let out := _request_json_with_retry (always (answer 503 None)) "get" (Some 3)
               logged_in in
  exists r,
    result_of (always (answer 503 None) 4%nat) = Responds r /\
    fst out = Raise (Exc ServiceUnavailable (MServiceUnavailable (status r))) /\
    calls (snd out) = 5%nat /\
    requests (snd out) = 3%nat /\
    sleeps (snd out) = [2; 1] /\
    _is_authenticated (snd out) = true.
Proof.
  apply (retry_exhaustion_schedule (always (answer 503 None)) "get" 2 logged_in).
  - vm_compute. reflexivity.
  - intros i _. eexists. split; reflexivity.
Defined.

(** A login that is not rate limited and meets two responses of status
    200, the second without an empty auth cookie, returns. *)
Lemma login_handshake_ok (net : nat -> outcome) (s : client) (r1 r2 : response) :
  _next_login s <= now s ->
  result_of (net (calls s)) = Responds r1 -> status r1 = 200 ->
  result_of (net (S (calls s))) = Responds r2 -> status r2 = 200 ->
  empty_cookie r2 = false ->
  exists s',
    login net s = (Ok tt, s') /\
    calls s' = S (S (calls s)) /\
    requests s' = requests s /\
    sleeps s' = sleeps s /\
    _is_authenticated s' = true /\
    _next_login s' = _next_login s /\
    now s <= now s'.
Proof.
  intros G H1 S1 H2 S2 He. unfold calls in H1, H2.
  assert (G' : (_next_login s >? now s) = false).
  { destruct (_next_login s >? now s) eqn:E; [apply Z.gtb_lt in E; lia | reflexivity]. }
  run. cbn. rewrite G'. cbn. rewrite H1.
  destruct (auth_cookie r1); cbn; rewrite S1; cbn; rewrite H2; cbn;
    rewrite He, S2; cbn; eexists; repeat split; cbn; lia.
Qed.

Lemma attempt_unauthorized (net : nat -> outcome) (method : string)
    (s : client) (r : response) :
  _is_authenticated s = true ->
  result_of (net (calls s)) = Responds r ->
  unauthorized_status (status r) = true ->
  exists e s1,
    (ensure_authenticated net ;; _request_json net method) s = (Raise e, s1) /\
    kind_of e = UnauthorizedError /\
    calls s1 = S (calls s) /\
    requests s1 = S (requests s) /\
    sleeps s1 = sleeps s /\
    _next_login s1 = _next_login s /\
    now s <= now s1.
Proof.
  intros A H U. unfold unauthorized_status in U. unfold calls in H.
  run. cbn. rewrite A. cbn. rewrite H.
  assert (T200 : (status r =? 200) = false).
  { apply Z.eqb_neq. intros E. rewrite E in U. discriminate U. }
  destruct (auth_cookie r); cbn; rewrite T200; cbn;
    destruct (status r =? 401) eqn:T401; cbn;
    try (destruct (status r =? 403) eqn:T403; cbn; [|discriminate U]);
    do 2 eexists; repeat split; cbn; lia.
Qed.

Lemma attempt_success (net : nat -> outcome) (method : string)
    (s : client) (r : response) :
  _is_authenticated s = true ->
  result_of (net (calls s)) = Responds r ->
  status r = 200 ->
  expected_content_type (content_type r) = true ->
  exists s1,
    (ensure_authenticated net ;; _request_json net method) s
    = (returned_of r, s1) /\
    calls s1 = S (calls s) /\
    requests s1 = S (requests s) /\
    sleeps s1 = sleeps s /\
    _is_authenticated s1 = true /\
    _null_cookie_count s1 = 0.
Proof.
  intros A H S200 Ct. unfold calls in H. unfold returned_of.
  run. cbn. rewrite A. cbn. rewrite H.
  destruct (auth_cookie r); cbn; rewrite S200, Ct; cbn;
    destruct (content_type r =? "application/json")%string; cbn;
    try destruct (json r) as [?| |[|]]; cbn;
    eexists; repeat split; auto.
Qed.

(** What an attempt makes of a successful response ends the loop: the
    value is returned, the error of reading the body is none of those the
    loop handles. *)
Lemma retry_loop_ends (net : nat -> outcome) (method : string)
    (retries : Z) (rest : nat) (attempt : Z) (last_error : option exn)
    (s : client) (r : response) (s1 : client) :
  (ensure_authenticated net ;; _request_json net method) s
  = (returned_of r, s1) ->
  retry_loop net method retries (S rest) attempt last_error s
  = (returned_of r, s1).
Proof.
  intros H. cbn [retry_loop]. unfold bind at 1. unfold try_ at 1.
  rewrite H. unfold returned_of.
  destruct (content_type r =? "application/json")%string;
    try destruct (json r) as [?| |[|]]; reflexivity.
Qed.

Lemma retry_loop_relogin_ok (net : nat -> outcome) (method : string)
    (retries : Z) (rest : nat) (attempt : Z) (last_error : option exn)
    (s : client) (e : exn) (s1 : client) (u : unit) (s2 : client) :
  (ensure_authenticated net ;; _request_json net method) s = (Raise e, s1) ->
  kind_of e = UnauthorizedError ->
  login net (set_authenticated false s1) = (Ok u, s2) ->
  retry_loop net method retries (S rest) attempt last_error s
  = retry_loop net method retries rest (attempt + 1) last_error s2.
Proof.
  intros H K L. cbn [retry_loop]. unfold bind at 1. unfold try_ at 1.
  rewrite H, K. unfold bind, modify, try_. rewrite L. reflexivity.
Qed.

(** X6.  An expired session is repaired within the call: when an
    authenticated client (not rate limited, at least two attempts) is
    answered 401 or 403, then 200 twice to the login handshake and 200
    with an expected content type to the repeated request, the call
    ends as that last response makes it end (with its body, or with the
    error of reading that body) after four transport calls and without
    any sleep. *)
Theorem expired_session_is_repaired (net : nat -> outcome) (method : string)
    (retries : Z) (s : client) (r0 r1 r2 r3 : response) :
  2 <= retries ->
  _is_authenticated s = true ->
  _next_login s <= now s ->
  result_of (net (calls s)) = Responds r0 ->
  unauthorized_status (status r0) = true ->
  result_of (net (calls s + 1)%nat) = Responds r1 -> status r1 = 200 ->
  result_of (net (calls s + 2)%nat) = Responds r2 -> status r2 = 200 ->
  empty_cookie r2 = false ->
  result_of (net (calls s + 3)%nat) = Responds r3 -> status r3 = 200 ->
  expected_content_type (content_type r3) = true ->
  let out := _request_json_with_retry net method (Some retries) s in
  fst out = returned_of r3 /\
  calls (snd out) = (calls s + 4)%nat /\
  requests (snd out) = (requests s + 2)%nat /\
  sleeps (snd out) = sleeps s /\
  _is_authenticated (snd out) = true.
Proof.
  intros Hn A G H0 U H1 S1 H2 S2 He H3 S3 Ct out. subst out.
  destruct (attempt_unauthorized net method s r0 A H0 U)
    as [e [s1 [E1 [K [C1 [R1 [Sl1 [N1 T1]]]]]]]].
  destruct (login_handshake_ok net (set_authenticated false s1) r1 r2)
    as [s2 [L [C2 [R2 [Sl2 [A2 _]]]]]]; cbn [_next_login now set_authenticated];
    try assumption.
  - lia.
  - change (calls (set_authenticated false s1)) with (calls s1).
    rewrite C1. rewrite <- H1. f_equal. f_equal. lia.
  - change (calls (set_authenticated false s1)) with (calls s1).
    rewrite C1. rewrite <- H2. f_equal. f_equal. lia.
  - change (calls (set_authenticated false s1)) with (calls s1) in C2.
    change (requests (set_authenticated false s1)) with (requests s1) in R2.
    change (sleeps (set_authenticated false s1)) with (sleeps s1) in Sl2.
    destruct (attempt_success net method s2 r3 A2) as [s3 [E3 [C3 [R3 [Sl3 [A3 _]]]]]];
      try assumption.
    { rewrite C2, C1. rewrite <- H3. f_equal. f_equal. lia. }
    unfold _request_json_with_retry, bind, get.
    destruct (Z.to_nat retries) as [|[|m]] eqn:Hm; try lia.
    rewrite (retry_loop_relogin_ok _ _ _ _ _ _ _ _ _ _ _ E1 K L).
    rewrite (retry_loop_ends _ _ _ _ _ _ _ _ _ E3).
    cbn [fst snd]. repeat split; try congruence; lia.
Qed.

Lemma expired_session_is_repaired_witness :
  let net := script [answer 200 None; answer 200 None; answer 403 None;
                     answer 200 None; answer 200 None; json_answer (JNum 7)]
                    broken in
  let out := _request_json_with_retry net "get" (Some 3) logged_in in
  fst out = Ok (Decoded (JNum 7)) /\
  calls (snd out) = (calls logged_in + 4)%nat /\
  requests (snd out) = (requests logged_in + 2)%nat /\
  sleeps (snd out) = sleeps logged_in /\
  _is_authenticated (snd out) = true.
Proof.
  intros net.
  apply (expired_session_is_repaired net "get" 3 logged_in
           {| status := 403; content_type := "application/json"; history := 0;
              auth_cookie := None; json := Parsed JNull |}
           {| status := 200; content_type := "application/json"; history := 0;
              auth_cookie := None; json := Parsed JNull |}
           {| status := 200; content_type := "application/json"; history := 0;
              auth_cookie := None; json := Parsed JNull |}
           {| status := 200; content_type := "application/json"; history := 0;
              auth_cookie := None; json := Parsed (JNum 7) |});
    vm_compute; (reflexivity || discriminate).
Defined.

(** ** _get_locations *)

Lemma locations_pages_authenticated (net : nat -> outcome) :
  forall (pages : list Z) (acc : list json_value) (s : client),
    _is_authenticated s = true ->
    exists l s',
      locations_pages net pages acc s = (Ok l, s') /\
      (calls s' <= calls s + List.length pages)%nat /\
      requests s' = requests s /\
      sleeps s' = sleeps s /\
      _is_authenticated s' = true /\
      _null_cookie_count s' = _null_cookie_count s /\
      _next_login s' = _next_login s.
Proof.
  induction pages as [|page rest IH]; intros acc s A.
  - exists acc, s. cbn. repeat split; auto; lia.
  - cbn [locations_pages].
    cbv [bind try_ ensure_authenticated get ret transport update_cookies
         modify raise].
    rewrite A. cbn.
    repeat (first [ branch
                  | match goal with
                    | |- context [match extend ?a ?j with _ => _ end] =>
                        destruct (extend a j) eqn:?
                    end ]; cbn);
      try (match goal with
           | |- context [locations_pages net rest ?acc' ?s1] =>
               destruct (IH acc' s1 A) as [l' [s' [E [C [R [Sl [A' [N X]]]]]]]];
               exists l', s'; split; [exact E|]
           end);
      try (eexists; eexists; split; [reflexivity|]);
      unfold calls, requests in *; cbn in *;
      repeat split; auto; try lia.
Qed.

(** Once [ensure_authenticated] has returned at the head of a page, the
    loop goes on as from an authenticated client. *)
Lemma locations_pages_after_login (net : nat -> outcome) (page : Z)
    (rest : list Z) (acc : list json_value) (s : client) (u : unit) (sa : client) :
  ensure_authenticated net s = (Ok u, sa) ->
  locations_pages net (page :: rest) acc s
  = locations_pages net (page :: rest) acc sa.
Proof.
  intros E.
  pose proof (ensure_authenticated_again net net s u sa (or_introl E)) as E'.
  cbn [locations_pages]. unfold bind, try_. rewrite E, E'. reflexivity.
Qed.

(** X7.  [_get_locations] never raises: a failed login, a transport
    failure or a body that cannot be iterated ends the page loop, and the
    method returns what it has, [None] when that is nothing.  It makes at
    most six transport calls (four pages and one login), none of them
    through [_request_json]. *)
Theorem _get_locations_never_raises (net : nat -> outcome) (s : client) :
  exists v s',
    _get_locations net s = (Ok v, s') /\
    (calls s' <= calls s + 6)%nat /\
    requests s' = requests s /\
    sleeps s' = sleeps s.
Proof.
  assert (P : exists l s',
             locations_pages net [1; 2; 3; 4] [] s = (Ok l, s') /\
             (calls s' <= calls s + 6)%nat /\
             requests s' = requests s /\ sleeps s' = sleeps s).
  { destruct (ensure_authenticated net s) as [[u|e] sa] eqn:EA.
    - rewrite (locations_pages_after_login _ _ _ _ _ _ _ EA).
      apply ensure_authenticated_effects in EA.
      destruct EA as [Ca [Ra [Sa Aa]]].
      destruct (locations_pages_authenticated net [1; 2; 3; 4] [] sa Aa)
        as [l [s' [E [C [R [Sl _]]]]]].
      exists l, s'. cbn [List.length] in C. repeat split; auto; try lia; congruence.
    - exists [], sa. split.
      + cbn [locations_pages]. unfold bind, try_. rewrite EA. reflexivity.
      + apply ensure_authenticated_effects in EA. repeat split; try tauto; lia. }
  destruct P as [l [s' [E [C [R Sl]]]]].
  unfold _get_locations, bind. rewrite E.
  destruct l; eexists; eexists; (split; [reflexivity|]); auto.
Qed.

(** X8.  On an authenticated client [_get_locations] sends its page
    requests and nothing else: at most four transport calls, no login, and
    whatever the statuses of the answers (401 and 403 included)
    [_is_authenticated], the null-cookie counter and [_next_login] stay as
    they were. *)
Theorem _get_locations_ignores_status (net : nat -> outcome) (s : client) :
  _is_authenticated s = true ->
  exists v s',
    _get_locations net s = (Ok v, s') /\
    (calls s' <= calls s + 4)%nat /\
    _is_authenticated s' = true /\
    _null_cookie_count s' = _null_cookie_count s /\
    _next_login s' = _next_login s.
Proof.
  intros A.
  destruct (locations_pages_authenticated net [1; 2; 3; 4] [] s A)
    as [l [s' [E [C [R [Sl [A' [N X]]]]]]]].
  unfold _get_locations, bind. rewrite E. cbn [List.length] in C.
  destruct l; eexists; eexists; (split; [reflexivity|]); auto.
Qed.

Lemma _get_locations_ignores_status_witness :
  exists v s',
    _get_locations (always refusal) logged_in = (Ok v, s') /\
    (calls s' <= calls logged_in + 4)%nat /\
    _is_authenticated s' = true /\
    _null_cookie_count s' = _null_cookie_count logged_in /\
    _next_login s' = _next_login logged_in.
Proof.
  apply (_get_locations_ignores_status (always refusal) logged_in).
  vm_compute. reflexivity.
Defined.

(** X9.  Partial results: when the first page of an authenticated client
    is a JSON list and the transport fails at the second page, the loop
    stops there, after two transport calls, and [_get_locations] returns
    the entries of the first page, or [None] if that list was empty. *)
Theorem _get_locations_keeps_first_page (net : nat -> outcome) (s : client)
    (r1 : response) (l1 : list json_value) (f : failure) :
  _is_authenticated s = true ->
  result_of (net (calls s)) = Responds r1 ->
  content_type r1 = "application/json" ->
  json r1 = Parsed (JList l1) ->
  result_of (net (S (calls s))) = Fails f ->
  let out := _get_locations net s in
  fst out = Ok (match l1 with [] => None | _ :: _ => Some l1 end) /\
  calls (snd out) = S (S (calls s)) /\
  _is_authenticated (snd out) = true.
Proof.
  intros A H1 Ct J H2 out. subst out.
  unfold _get_locations. cbn [locations_pages].
  cbv [bind try_ ensure_authenticated get ret transport update_cookies
       modify raise].
  rewrite A. cbn. rewrite H1. cbn. rewrite Ct, J. cbn.
  destruct (auth_cookie r1); cbn; rewrite A; cbn;
    unfold calls in H2; cbn; rewrite H2;
    destruct f; cbn; destruct l1; cbn; repeat split; auto.
Qed.

Lemma _get_locations_keeps_first_page_witness :
  let net := script [answer 200 None; answer 200 None;
                     json_answer (JList [JStr "home"])] broken in
  let out := _get_locations net logged_in in
  fst out = Ok (Some [JStr "home"]) /\
  calls (snd out) = S (S (calls logged_in)) /\
  _is_authenticated (snd out) = true.
Proof.
  intros net.
  apply (_get_locations_keeps_first_page net logged_in
           {| status := 200; content_type := "application/json"; history := 0;
              auth_cookie := None; json := Parsed (JList [JStr "home"]) |}
           [JStr "home"] AiohttpError); vm_compute; reflexivity.
Defined.

(** ** set_thermostat_settings, get_thermostat_data, get_device *)

Lemma assoc_get_set_same {V : Type} (d : list (string * V)) (k : string) (v : V) :
  assoc_get (assoc_set d k v) k = Some v.
Proof.
  induction d as [|[k' v'] rest IH]; cbn.
  - rewrite String.eqb_refl. reflexivity.
  - destruct (String.eqb k' k) eqn:E; cbn; rewrite ?E, ?String.eqb_refl; auto.
Qed.

Lemma assoc_get_set_other {V : Type} (d : list (string * V)) (k k' : string) (v : V) :
  k <> k' -> assoc_get (assoc_set d k v) k' = assoc_get d k'.
Proof.
  intros N. induction d as [|[k0 v0] rest IH]; cbn.
  - destruct (String.eqb_spec k k'); [contradiction | reflexivity].
  - destruct (String.eqb_spec k0 k); cbn.
    + subst k0. destruct (String.eqb_spec k k'); [contradiction | reflexivity].
    + destruct (String.eqb_spec k0 k'); auto.
Qed.

Lemma assoc_update_absent {V : Type} (other d : list (string * V)) (k : string) :
  ~ In k (map fst other) ->
  assoc_get (assoc_update d other) k = assoc_get d k.
Proof.
  unfold assoc_update. revert d.
  induction other as [|[k1 v1] rest IH]; intros d N; cbn in *.
  - reflexivity.
  - rewrite IH by tauto. apply assoc_get_set_other. intros E. apply N. left.
    exact E.
Qed.

Lemma assoc_update_present {V : Type} (other d : list (string * V)) (k : string) (v : V) :
  NoDup (map fst other) -> In (k, v) other ->
  assoc_get (assoc_update d other) k = Some v.
Proof.
  unfold assoc_update. revert d.
  induction other as [|[k1 v1] rest IH]; intros d N I; cbn in *.
  - contradiction.
  - inversion N as [|? ? Nk Nr]. subst. destruct I as [I|I].
    + inversion I. subst.
      change (assoc_get (assoc_update (assoc_set d k v) rest) k = Some v).
      rewrite assoc_update_absent by exact Nk. apply assoc_get_set_same.
    + apply IH; assumption.
Qed.

Lemma assoc_update_keeps_keys {V : Type} (other d : list (string * V)) (k : string) :
  assoc_get d k <> None -> assoc_get (assoc_update d other) k <> None.
Proof.
  unfold assoc_update. revert d.
  induction other as [|[k1 v1] rest IH]; intros d H; cbn.
  - exact H.
  - apply IH. destruct (String.eqb_spec k1 k).
    + subst. rewrite assoc_get_set_same. discriminate.
    + rewrite assoc_get_set_other by exact n. exact H.
Qed.

(** X10.  The body [set_thermostat_settings] sends always holds the nine
    keys of the control screen; a key the caller does not set keeps its
    default ([DeviceID] the thermostat id, the others [None]), and a key
    the caller sets carries the caller's value, [DeviceID] included. *)
Theorem thermostat_payload_lookup (thermostat_id : string)
    (settings : list (string * option string)) :
  (forall k, In k settings_keys ->
     assoc_get (thermostat_payload thermostat_id settings) k <> None) /\
  (forall k, ~ In k (map fst settings) ->
     assoc_get (thermostat_payload thermostat_id settings) k
     = if String.eqb k "DeviceID" then Some (Some thermostat_id)
       else if existsb (String.eqb k) settings_keys then Some None
       else None) /\
  (forall k v, NoDup (map fst settings) -> In (k, v) settings ->
     assoc_get (thermostat_payload thermostat_id settings) k = Some v).
Proof.
  unfold thermostat_payload. split; [|split].
  - intros k I. apply assoc_update_keeps_keys.
    cbn in I. repeat (destruct I as [I|I]; [subst k; cbn; discriminate|]).
    contradiction.
  - intros k N. rewrite assoc_update_absent by exact N.
    cbn [assoc_get existsb settings_keys]. rewrite !(String.eqb_sym k).
    repeat (match goal with
            | |- context [String.eqb ?a k] => destruct (String.eqb a k)
            end; cbn [orb]; try reflexivity).
  - intros k v N I. apply assoc_update_present; assumption.
Qed.

Lemma thermostat_payload_lookup_witness :
  assoc_get (thermostat_payload "1234" [("SystemSwitch", Some "1")]) "SystemSwitch"
  = Some (Some "1").
Proof.
  apply (proj2 (proj2 (thermostat_payload_lookup "1234" [("SystemSwitch", Some "1")]))).
  - repeat constructor. cbn. tauto.
  - left. reflexivity.
Defined.

(** X11.  [set_thermostat_settings] returns only when the service has
    answered its POST with status 200 and a JSON object whose [success]
    equals 1 as Python compares it (the integer 1, the float 1.0 or
    [true]); it raises [APIError] only after a 200 carrying [null] or an
    object whose [success] is missing or does not equal 1.  The rejection
    is not retried: the requests sent are those of the one executor call,
    at most [_retry_count]. *)
Theorem set_thermostat_settings_outcome (net : nat -> outcome)
    (thermostat_id : string) (settings : list (string * option string))
    (s : client) :
  let out := set_thermostat_settings net thermostat_id settings s in
  (requests (snd out) <= requests s + Z.to_nat (_retry_count s))%nat /\
  match fst out with
  | Ok _ =>
      exists o resp rest kv v,
        log (snd out) = (ApiRequest "post", o) :: rest /\
        result_of o = Responds resp /\
        status resp = 200 /\
        content_type resp = "application/json" /\
        json resp = Parsed (JObj kv) /\
        assoc_get kv "success" = Some v /\
        equals_one v = true
  | Raise e =>
      kind_of e = APIError ->
      exists o resp rest,
        log (snd out) = (ApiRequest "post", o) :: rest /\
        result_of o = Responds resp /\
        status resp = 200 /\
        content_type resp = "application/json" /\
        (json resp = Parsed JNull \/
         exists kv, json resp = Parsed (JObj kv) /\
                    forall v, assoc_get kv "success" = Some v ->
                              equals_one v = false)
  end.
Proof.
  intros out. subst out. unfold set_thermostat_settings, bind.
  destruct (_post_json net s) as [[v|e] s'] eqn:E;
    unfold _post_json, _request_json_with_retry, bind, get in E;
    apply retry_loop_effects in E; try discriminate;
    destruct E as [R [_ [_ W]]]; cbn [fst snd ends_well] in *.
  - destruct W as [o [resp [rest [L [Hr [S200 V]]]]]]. unfold returned_of in V.
    destruct (String.eqb_spec (content_type resp) "application/json") as [Ct|Ct].
    + destruct (json resp) as [j| |[|]] eqn:J; try discriminate V.
      inversion V; subst v.
      destruct j as [|b|n|f|t|l|kv]; cbn;
        try (split; [exact R | discriminate]).
      * split; [exact R|]. intros _. exists o, resp, rest. tauto.
      * destruct (assoc_get kv "success") as [v|] eqn:G; cbn;
          [destruct (equals_one v) eqn:Q; cbn|]; (split; [exact R|]).
        -- exists o, resp, rest, kv, v. tauto.
        -- intros _. exists o, resp, rest. repeat split; auto.
           right. exists kv. split; [exact J|]. congruence.
        -- intros _. exists o, resp, rest. repeat split; auto.
           right. exists kv. split; [exact J|]. intros v X. congruence.
    + inversion V; subst v. cbn. split; [exact R | discriminate].
  - split; [exact R|]. intros K. rewrite K in W. discriminate W.
Qed.

Lemma set_thermostat_settings_outcome_witness :
  let net := script [answer 200 None; answer 200 None;
                     json_answer (JObj [("success", JBool true)])] broken in
  let out := set_thermostat_settings net "1234" [("SystemSwitch", Some "1")]
               logged_in in
  fst out = Ok tt /\
  requests (snd out) = 1%nat /\
  exists o resp rest kv v,
    log (snd out) = (ApiRequest "post", o) :: rest /\
    result_of o = Responds resp /\
    status resp = 200 /\
    content_type resp = "application/json" /\
    json resp = Parsed (JObj kv) /\
    assoc_get kv "success" = Some v /\
    equals_one v = true.
Proof.
  intros net out.
  pose proof (set_thermostat_settings_outcome net "1234"
                [("SystemSwitch", Some "1")] logged_in) as H.
  cbv zeta in H. fold out in H. destruct H as [_ H].
  assert (E : fst out = Ok tt) by (vm_compute; reflexivity).
  rewrite E in H. split; [exact E|]. split; [vm_compute; reflexivity|].
  exact H.
Defined.

Lemma same_identity_refl (s : client) : same_identity s s.
Proof. repeat split. Qed.

Lemma same_identity_trans (s1 s2 s3 : client) :
  same_identity s1 s2 -> same_identity s2 s3 -> same_identity s1 s3.
Proof. unfold same_identity. intuition congruence. Qed.

Lemma login_identity (net : nat -> outcome) (s : client)
    (r : result unit) (s' : client) :
  login net s = (r, s') -> same_identity s s'.
Proof. cases; same_pair; repeat split. Qed.

Lemma _request_json_identity (net : nat -> outcome) (method : string)
    (s : client) (r : result returned) (s' : client) :
  _request_json net method s = (r, s') -> same_identity s s'.
Proof. cases; same_pair; repeat split. Qed.

Lemma ensure_authenticated_identity (net : nat -> outcome) (s : client)
    (r : result unit) (s' : client) :
  ensure_authenticated net s = (r, s') -> same_identity s s'.
Proof.
  unfold ensure_authenticated, bind, get, ret.
  destruct (negb (_is_authenticated s)).
  - apply login_identity.
  - intros E. inversion E. apply same_identity_refl.
Qed.

Lemma backoff_identity (attempt retries : Z) (s : client) :
  exists s', backoff attempt retries s = (Ok tt, s') /\ same_identity s s'.
Proof.
  unfold backoff, sleep, modify, ret.
  destruct (attempt <? retries - 1); eexists; repeat split.
Qed.

Ltac identity_after_backoff IH E attempt retries sb :=
  let sc := fresh "sc" in
  let B := fresh "B" in
  let Ic := fresh "Ic" in
  destruct (backoff_identity attempt retries sb) as [sc [B Ic]];
  rewrite B in E; apply IH in E;
  eauto using same_identity_trans.

Ltac identity_after_relogin IH E Ib net attempt retries s sb :=
  let u2 := fresh "u" in
  let e2 := fresh "e" in
  let sc := fresh "sc" in
  let LG := fresh "LG" in
  let Ic := fresh "Ic" in
  destruct (login net (set_authenticated false sb)) as [[u2|e2] sc] eqn:LG;
  apply login_identity in LG;
  assert (Ic : same_identity s sc)
    by (apply (same_identity_trans _ _ _ Ib); exact LG);
  [ apply IH in E; eauto using same_identity_trans
  | destruct (kind_of e2);
    try (inversion E; subst; exact Ic);
    identity_after_backoff IH E attempt retries sc ].

Lemma retry_loop_identity (net : nat -> outcome) (method : string) (retries : Z) :
  forall (remaining : nat) (attempt : Z) (last_error : option exn)
         (s : client) (r : result returned) (s' : client),
    retry_loop net method retries remaining attempt last_error s = (r, s') ->
    same_identity s s'.
Proof.
  induction remaining as [|rest IH]; intros attempt last_error s r s' E.
  - cbn in E. destruct last_error; unfold reraise, raise in E; inversion E;
      apply same_identity_refl.
  - cbn [retry_loop] in E. unfold bind, try_, modify, reraise, ret in E.
    destruct (ensure_authenticated net s) as [[u|e] sa] eqn:EA;
      apply ensure_authenticated_identity in EA.
    + destruct (_request_json net method sa) as [[v|e] sb] eqn:RJ;
        apply _request_json_identity in RJ;
        pose proof (same_identity_trans _ _ _ EA RJ) as Ib.
      * inversion E; subst. exact Ib.
      * destruct (kind_of e);
          try (inversion E; subst; exact Ib);
          try (identity_after_backoff IH E attempt retries sb).
        identity_after_relogin IH E Ib net attempt retries s sb.
    + destruct (kind_of e);
        try (inversion E; subst; exact EA);
        try (identity_after_backoff IH E attempt retries sa).
      identity_after_relogin IH E EA net attempt retries s sa.
Qed.

(** X12.  Each [get_thermostat_data] advances the cache-busting request
    counter by exactly one, however many attempts and re-logins the
    request takes and however it ends; credentials and configured retry
    count are never written. *)
Theorem get_thermostat_data_counts_once (net : nat -> outcome)
    (thermostat_id : string) (s : client) :
  let out := get_thermostat_data net thermostat_id s in
  _counter (snd out) = _counter s + 1 /\
  credentials (snd out) = credentials s /\
  _retry_count (snd out) = _retry_count s.
Proof.
  intros out. subst out.
  unfold get_thermostat_data, _get_json, _request_json_with_retry,
    bind, modify, get.
  destruct (retry_loop _ _ _ _ _ _ _) as [r s'] eqn:E.
  apply retry_loop_identity in E. destruct E as [C [Cr Rc]].
  cbn [snd]. cbn in C, Cr, Rc. auto.
Qed.

(** X13.  [get_device] finds a device exactly when some location holds
    the id, and what it returns is stored under that id; [default_device]
    is [None] exactly when no location has a device, so an account on
    which [get_device] finds something has a default device. *)
Theorem get_device_sound_and_complete (locs : locations) (device_id : string) :
  (forall d, get_device locs device_id = Some d ->
     exists location_id devices_by_id,
       In (location_id, devices_by_id) locs /\
       assoc_get devices_by_id device_id = Some d) /\
  (get_device locs device_id = None <->
     forall location_id devices_by_id,
       In (location_id, devices_by_id) locs ->
       assoc_get devices_by_id device_id = None) /\
  (default_device locs = None <->
     forall location_id devices_by_id,
       In (location_id, devices_by_id) locs -> devices_by_id = []) /\
  (get_device locs device_id <> None -> default_device locs <> None).
Proof.
  induction locs as [|[lid devs] rest [IH1 [IH2 [IH3 IH4]]]]; cbn.
  - repeat split; try discriminate; try contradiction; auto.
  - split; [|split; [|split]].
    + intros d. destruct (assoc_get devs device_id) as [d'|] eqn:G.
      * intros E. inversion E. subst. exists lid, devs. auto.
      * intros E. destruct (IH1 d E) as [l [ds [I A]]]. exists l, ds. auto.
    + destruct (assoc_get devs device_id) as [d'|] eqn:G.
      * split; [discriminate|]. intros H. specialize (H lid devs (or_introl eq_refl)).
        congruence.
      * rewrite IH2. split.
        -- intros H l ds [I|I]; [inversion I; subst; exact G | eauto].
        -- intros H l ds I. eauto.
    + destruct devs as [|[id0 d0] devs'].
      * rewrite IH3. split.
        -- intros H l ds [I|I]; [inversion I; reflexivity | eauto].
        -- intros H l ds I. eauto.
      * split; [discriminate|]. intros H.
        specialize (H lid _ (or_introl eq_refl)). discriminate.
    + destruct devs as [|[id0 d0] devs']; cbn.
      * exact IH4.
      * discriminate.
Qed.

Lemma get_device_sound_and_complete_witness :
  exists location_id devices_by_id,
    In (location_id, devices_by_id)
       [("home", []); ("cabin", [("1234", thermostat)])] /\
    assoc_get devices_by_id "1234" = Some thermostat.
Proof.
  apply (proj1 (get_device_sound_and_complete
                  [("home", []); ("cabin", [("1234", thermostat)])] "1234")
           thermostat).
  reflexivity.
Defined.

(** * Further properties of the coordinator *)

Lemma dict_set_keeps_keys (d : device_data) (k : string) (v : bool) (id : string) :
  dict_get d id <> None -> dict_get (dict_set d k v) id <> None.
Proof.
  induction d as [|[k' v'] rest IH]; cbn.
  - intros H. contradiction.
  - destruct (String.eqb_spec k' k) as [E|E]; cbn.
    + subst k'. destruct (String.eqb k id); [discriminate | auto].
    + destruct (String.eqb k' id); [discriminate | exact IH].
Qed.

(** The device loop gets through a list whose refreshes fail with
    nothing but [SomeComfortError]s, and keeps every key. *)
Lemma refresh_devices_completes (refresh : device -> M bool) (ds : list device) :
  (forall d s ex s1,
      In d ds -> refresh d s = (Raise ex, s1) ->
      is_SomeComfortError (kind_of ex) = true) ->
  forall readings s,
    exists readings' s',
      refresh_devices refresh ds readings s = (Ok readings', s') /\
      (forall d, In d ds -> dict_get readings' (deviceid d) <> None) /\
      (forall id, dict_get readings id <> None -> dict_get readings' id <> None).
Proof.
  induction ds as [|d rest IH]; intros H readings s.
  - exists readings, s. cbn. repeat split; auto; intros d [].
  - assert (Hrest : forall d0 s0 ex s1, In d0 rest ->
               refresh d0 s0 = (Raise ex, s1) ->
               is_SomeComfortError (kind_of ex) = true)
      by (intros; eapply H; [right|]; eassumption).
    cbn [refresh_devices]. unfold bind, try_.
    destruct (refresh d s) as [[alive|ex] s1] eqn:R.
    + destruct (IH Hrest (dict_set readings (deviceid d) alive) s1)
        as [r' [s' [E [K1 K2]]]].
      exists r', s'. split; [exact E|]. split.
      * intros d0 [I|I]; [subst d0|auto].
        apply K2. rewrite dict_get_set. discriminate.
      * intros id Hid. apply K2. apply dict_set_keeps_keys. exact Hid.
    + rewrite (H d s ex s1 (or_introl eq_refl) R).
      destruct (IH Hrest (dict_set readings (deviceid d) false) s1)
        as [r' [s' [E [K1 K2]]]].
      exists r', s'. split; [exact E|]. split.
      * intros d0 [I|I]; [subst d0|auto].
        apply K2. rewrite dict_get_set. discriminate.
      * intros id Hid. apply K2. apply dict_set_keeps_keys. exact Hid.
Qed.

(** X14.  Isolation: when the refreshes fail with nothing but
    [SomeComfortError]s, the device loop refreshes every device of the
    list, whatever became of the devices before it, and returns: its
    readings are the flags of the plain map assigned to the dict it
    started with, every id it started with is kept, and with distinct
    device ids the flag of each device is what its own refresh gave at the
    client left by the devices before it ([False] if it raised); from the
    empty dict the readings are those flags in the order of the
    devices. *)
Theorem refresh_devices_isolation (refresh : device -> M bool) (ds : list device) :
  (forall d s ex s1,
      In d ds -> refresh d s = (Raise ex, s1) ->
      is_SomeComfortError (kind_of ex) = true) ->
  forall readings s,
    let flags := fst (device_flags refresh ds s) in
    refresh_devices refresh ds readings s
    = (Ok (recorded flags readings), snd (device_flags refresh ds s)) /\
    (forall id, dict_get readings id <> None ->
                dict_get (recorded flags readings) id <> None) /\
    (NoDup (map deviceid ds) ->
     (forall before d after,
         ds = (before ++ d :: after)%list ->
         dict_get (recorded flags readings) (deviceid d)
         = Some (flag_of (fst (refresh d (snd (device_flags refresh before s)))))) /\
     recorded flags [] = flags).
Proof.
  intros H readings s flags.
  destruct (refresh_devices_completes refresh ds H readings s)
    as [r [s' [E [_ Keep]]]].
  pose proof (refresh_devices_flags refresh ds _ _ _ _ E readings) as F.
  fold flags in F. split; [exact F|]. split.
  - rewrite F in E. inversion E. subst r. exact Keep.
  - intros N. split.
    + intros before d after D. subst flags. subst ds.
      rewrite device_flags_app. cbn [fst snd device_flags].
      rewrite recorded_app. cbn [recorded].
      rewrite recorded_other.
      * apply dict_get_set.
      * rewrite device_flags_keys.
        rewrite map_app in N. cbn [map] in N.
        destruct (NoDup_app_parts _ _ N) as [_ [Nda _]].
        inversion Nda. assumption.
    + apply (recorded_fresh flags).
      * subst flags. rewrite device_flags_keys. exact N.
      * intros k _ [].
Qed.

Lemma refresh_devices_isolation_witness :
  let net := refused_at 3 in
  let ds := [thermostat; upstairs; basement] in
  let flags := [("1234", true); ("5678", false); ("9012", true)] in
  refresh_devices (refresh_bare net) ds [] logged_in
  = (Ok flags, snd (device_flags (refresh_bare net) ds logged_in)) /\
  dict_get flags "5678" = Some false /\
  dict_get flags "9012" = Some true.
Proof.
  intros net ds flags.
  assert (H : forall d s ex s1,
             In d ds -> refresh_bare net d s = (Raise ex, s1) ->
             is_SomeComfortError (kind_of ex) = true).
  { intros d s ex s1 _. unfold refresh_bare, net, refused_at, answer.
    run. cbn. destruct (Nat.eqb (List.length (log s)) 3); cbn;
      intros E; inversion E; reflexivity. }
  destruct (refresh_devices_isolation (refresh_bare net) ds H [] logged_in)
    as [E [_ I]].
  assert (N : NoDup (map deviceid ds))
    by (repeat constructor; cbn; intuition discriminate).
  destruct (I N) as [Each Fresh]. rewrite Fresh in E, Each.
  assert (F : fst (device_flags (refresh_bare net) ds logged_in) = flags)
    by (vm_compute; reflexivity).
  rewrite F in E, Each. split; [exact E|]. split.
  - etransitivity; [exact (Each [thermostat] upstairs [basement] eq_refl)|].
    vm_compute. reflexivity.
  - etransitivity; [exact (Each [thermostat; upstairs] basement [] eq_refl)|].
    vm_compute. reflexivity.
Defined.

(** Readings in which no device is available. *)
Lemma refresh_devices_all_fail (refresh : device -> M bool) (ds : list device) :
  (forall d s, exists ex s1,
      refresh d s = (Raise ex, s1) /\ is_SomeComfortError (kind_of ex) = true) ->
  forall readings s,
    (forall id b, dict_get readings id = Some b -> b = false) ->
    exists readings' s',
      refresh_devices refresh ds readings s = (Ok readings', s') /\
      (forall d, In d ds -> dict_get readings' (deviceid d) = Some false) /\
      (forall id b, dict_get readings' id = Some b -> b = false).
Proof.
  intros H.
  induction ds as [|d rest IH]; intros readings s F.
  - exists readings, s. cbn. repeat split; auto; intros d [].
  - cbn [refresh_devices]. unfold bind, try_.
    destruct (H d s) as [ex [s1 [R K]]]. rewrite R, K.
    destruct (IH (dict_set readings (deviceid d) false) s1)
      as [r' [s' [E [K1 K2]]]].
    + intros id b. destruct (String.eqb_spec (deviceid d) id) as [Eq|Ne].
      * subst id. rewrite dict_get_set. congruence.
      * rewrite dict_get_set_other by exact Ne. apply F.
    + exists r', s'. split; [exact E|]. split; [|exact K2].
      intros d0 [I|I]; [subst d0|auto].
      destruct (dict_get r' (deviceid d)) as [b|] eqn:G.
      * rewrite (K2 _ _ G). reflexivity.
      * exfalso.
        destruct (refresh_devices_completes refresh rest) with
          (readings := dict_set readings (deviceid d) false) (s := s1)
          as [r2 [s2 [E2 [_ Keep]]]].
        { intros d1 s3 ex1 s4 _ R1. destruct (H d1 s3) as [ex2 [s5 [R2 K3]]].
          rewrite R2 in R1. inversion R1. subst. exact K3. }
        rewrite E in E2. inversion E2. subst.
        apply (Keep (deviceid d)); [rewrite dict_get_set; discriminate | exact G].
Qed.

(** X15.  A cycle in which every device refresh fails with a
    [SomeComfortError] is still a completed cycle: on an authenticated
    client [_async_update_data] returns readings that mark every device
    unavailable, resets the error counter to 0 and raises nothing; every
    entity reads [available = False] from the stored readings. *)
Theorem all_devices_failing_completes_the_cycle (net : nat -> outcome)
    (refresh : device -> M bool) (depth : nat) (k : coordinator) :
  _is_authenticated (client_of k) = true ->
  (forall d s, exists ex s1,
      refresh d s = (Raise ex, s1) /\ is_SomeComfortError (kind_of ex) = true) ->
  exists readings k',
    _async_update_data net refresh (S depth) k = Some (Ok readings, k') /\
    _consecutive_errors k' = 0 /\
    (forall d, In d (devices k) ->
       dict_get readings (deviceid d) = Some false) /\
    (forall d, In d (devices k) ->
       entity_available (set_data (Some readings) k') (deviceid d) = false).
Proof.
  intros A H.
  destruct (refresh_devices_all_fail refresh (devices k) H [] (client_of k))
    as [readings [s' [E [K1 K2]]]]; [intros id b; discriminate|].
  exists readings, (set_consecutive_errors 0 (set_client s' k)).
  split; [|split; [reflexivity|split; [exact K1|]]].
  - unfold _async_update_data. cbn [update_cycle].
    cbv [try_body on_client bind get modify ret ensure_authenticated].
    rewrite A. cbn. rewrite E. reflexivity.
  - intros d I. unfold entity_available. cbn [data set_data].
    destruct readings as [|e rest]; [reflexivity|].
    rewrite (K1 d I). reflexivity.
Qed.

Lemma all_devices_failing_completes_the_cycle_witness :
  exists readings k',
    _async_update_data (always broken) refresh_rejected 1
      (set_consecutive_errors 4 (new_coordinator logged_in [thermostat]))
    = Some (Ok readings, k') /\
    _consecutive_errors k' = 0 /\
    dict_get readings "1234" = Some false.
Proof.
  destruct (all_devices_failing_completes_the_cycle
              (always broken) refresh_rejected 0
              (set_consecutive_errors 4 (new_coordinator logged_in [thermostat])))
    as [readings [k' [E [C [R _]]]]].
  - vm_compute. reflexivity.
  - intros d s. do 2 eexists. split; reflexivity.
  - exists readings, k'. split; [exact E|]. split; [exact C|].
    apply (R thermostat). left. reflexivity.
Defined.

Lemma try_body_returns (net : nat -> outcome) (refresh : device -> M bool)
    (k : coordinator) (readings : device_data) (k1 : coordinator) :
  try_body net refresh k = (Ok readings, k1) ->
  _consecutive_errors k1 = 0.
Proof.
  unfold try_body, on_client, bind, get, modify, ret.
  destruct (ensure_authenticated net (client_of k)) as [[u|e] s1]; cbn.
  - destruct (refresh_devices refresh (devices k) [] s1) as [[r|e] s2];
      intros E; inversion E; reflexivity.
  - discriminate.
Qed.

(** X16.  Whatever the network and the devices do, one level of
    [_async_update_data] is enough and it has three ways to end: fresh
    readings with the error counter back at 0, the previous snapshot with
    the counter one higher, or [UpdateFailed] with the counter one higher.
    No other exception leaves it. *)
Theorem _async_update_data_outcomes (net : nat -> outcome)
    (refresh : device -> M bool) (depth : nat) (k : coordinator) :
  exists r k',
    _async_update_data net refresh (S depth) k = Some (r, k') /\
    match r with
    | Ok readings =>
        _consecutive_errors k' = 0 \/
        (_consecutive_errors k' = _consecutive_errors k + 1 /\
         readings = previous_snapshot k)
    | Raise e =>
        kind_of e = UpdateFailed /\
        _consecutive_errors k' = _consecutive_errors k + 1
    end.
Proof.
  unfold _async_update_data. cbn [update_cycle].
  destruct (try_body net refresh k) as [[readings|ex] k1] eqn:B.
  - apply try_body_returns in B.
    exists (Ok readings), k1. split; [reflexivity | left; exact B].
  - pose proof (try_body_never_unauthorized _ _ _ _ _ B) as NU.
    apply try_body_raises in B. destruct B as [_ [C [Mx [D _]]]].
    unfold count_error, stale_data, previous_snapshot, bind, modify, get, ret,
      raise.
    destruct (kind_of ex); try congruence; cbn;
      try (destruct (_ >=? _); cbn);
      do 2 eexists; (split; [reflexivity|]); cbn;
      rewrite ?C, ?D; auto.
Qed.

(** X17.  A poll during the login cool-down costs nothing and is never
    fatal: with an unauthenticated client before [_next_login],
    [_async_update_data] makes no transport call, counts one error and
    returns the previous snapshot, however high the counter already is. *)
Theorem rate_limited_cycle_returns_snapshot (net : nat -> outcome)
    (refresh : device -> M bool) (depth : nat) (k : coordinator) :
  _is_authenticated (client_of k) = false ->
  now (client_of k) < _next_login (client_of k) ->
  exists k',
    _async_update_data net refresh (S depth) k
    = Some (Ok (previous_snapshot k), k') /\
    calls (client_of k') = calls (client_of k) /\
    _consecutive_errors k' = _consecutive_errors k + 1 /\
    data k' = data k.
Proof.
  intros A G.
  unfold _async_update_data. cbn [update_cycle].
  unfold try_body, on_client, bind at 1.
  unfold ensure_authenticated, bind at 1. unfold get at 1.
  rewrite A. cbn [negb]. rewrite (login_rate_limited net _ G).
  cbn. eexists. split; [reflexivity|]. repeat split.
Qed.

Lemma rate_limited_cycle_returns_snapshot_witness :
  exists k',
    _async_update_data (always (answer 200 None)) refresh_ok 1
      (set_client (set_next_login 10 fresh) four_failures)
    = Some (Ok [("1234", true)], k') /\
    _consecutive_errors k' = 5.
Proof.
  destruct (rate_limited_cycle_returns_snapshot
              (always (answer 200 None)) refresh_ok 0
              (set_client (set_next_login 10 fresh) four_failures))
    as [k' [E [_ [C _]]]].
  - reflexivity.
  - vm_compute. reflexivity.
  - exists k'. split; [exact E | exact C].
Defined.

(** X18.  Rejected credentials during a poll are fatal at once: when the
    login of an unauthenticated, not rate-limited client is answered 401,
    the cycle raises [UpdateFailed] ("Unexpected error") whatever the
    error counter says, after one transport call, with one more null
    cookie counted. *)
Theorem rejected_login_fails_the_cycle (net : nat -> outcome)
    (refresh : device -> M bool) (depth : nat) (k : coordinator) (r : response) :
  _is_authenticated (client_of k) = false ->
  _next_login (client_of k) <= now (client_of k) ->
  result_of (net (calls (client_of k))) = Responds r ->
  status r = 401 ->
  exists k',
    _async_update_data net refresh (S depth) k
    = Some (Raise (Exc UpdateFailed (MUnexpected MLoginFailed)), k') /\
    _consecutive_errors k' = _consecutive_errors k + 1 /\
    calls (client_of k') = S (calls (client_of k)) /\
    _null_cookie_count (client_of k')
    = _null_cookie_count (client_of k) + 1.
Proof.
  intros A G H S401.
  assert (G' : (_next_login (client_of k) >? now (client_of k)) = false).
  { destruct (_ >? _) eqn:E; [apply Z.gtb_lt in E; lia | reflexivity]. }
  assert (L : exists s',
             login net (client_of k) = (Raise (Exc AuthError MLoginFailed), s') /\
             calls s' = S (calls (client_of k)) /\
             _null_cookie_count s' = _null_cookie_count (client_of k) + 1).
  { unfold calls in H. run. cbn. rewrite G'. cbn. rewrite H.
    destruct (auth_cookie r); cbn; rewrite S401; cbn;
      destruct (_ >=? _); cbn; eexists; repeat split. }
  destruct L as [s' [L [C N]]].
  unfold _async_update_data. cbn [update_cycle].
  unfold try_body, on_client, bind at 1.
  unfold ensure_authenticated, bind at 1. unfold get at 1.
  rewrite A. cbn [negb]. rewrite L.
  cbn. eexists. split; [reflexivity|]. cbn. repeat split; assumption.
Qed.

Lemma rejected_login_fails_the_cycle_witness :
  exists k',
    _async_update_data (always (answer 401 None)) refresh_ok 1
      (new_coordinator fresh [thermostat])
    = Some (Raise (Exc UpdateFailed (MUnexpected MLoginFailed)), k') /\
    _consecutive_errors k' = 1.
Proof.
  destruct (rejected_login_fails_the_cycle
              (always (answer 401 None)) refresh_ok 0
              (new_coordinator fresh [thermostat])
              {| status := 401; content_type := "application/json";
                 history := 0; auth_cookie := None; json := Parsed JNull |})
    as [k' [E [C _]]]; try reflexivity; try (cbn; lia).
  exists k'. split; [exact E | exact C].
Defined.

(** * Properties of the climate entity *)

Lemma command_attempts_swallows (async_request_refresh command : Co coordinator unit) :
  forall (remaining : nat) (attempt : Z) (k : coordinator),
    match fst (command_attempts async_request_refresh command remaining attempt k) with
    | Ok _ => True
    | Raise e => is_SomeComfortError (kind_of e) = false
    end.
Proof.
  induction remaining as [|rest IH]; intros attempt k.
  - exact I.
  - cbn [command_attempts]. unfold bind at 1. unfold try_ at 1.
    destruct ((command;; async_request_refresh) k) as [[u|e] k1].
    + exact I.
    + destruct (is_SomeComfortError (kind_of e)) eqn:K.
      * unfold bind, on_client, sleep, modify, ret.
        destruct (attempt <? RETRY_ATTEMPTS - 1); cbn; apply IH.
      * cbn. exact K.
Qed.

(** X19.  The three commands of the climate entity never pass a
    [SomeComfortError] on to their caller: whatever the device methods and
    the refresh request do, [async_set_hvac_mode], [async_set_fan_mode]
    and [async_set_temperature] return, or raise an exception that is not
    a [SomeComfortError]. *)
Theorem climate_commands_swallow_client_errors
    (temperature : Type)
    (set_system_mode set_fan_mode : string -> Co coordinator unit)
    (set_setpoint_cool set_setpoint_heat : temperature -> Co coordinator unit)
    (async_request_refresh : Co coordinator unit)
    (system_mode : coordinator -> option string)
    (k : coordinator) :
  (forall mode,
      match fst (async_set_hvac_mode set_system_mode async_request_refresh mode k) with
      | Ok _ => True
      | Raise e => is_SomeComfortError (kind_of e) = false
      end) /\
  (forall fan,
      match fst (async_set_fan_mode set_fan_mode async_request_refresh fan k) with
      | Ok _ => True
      | Raise e => is_SomeComfortError (kind_of e) = false
      end) /\
  (forall temp temp_low temp_high,
      match fst (async_set_temperature temperature set_setpoint_cool
                   set_setpoint_heat async_request_refresh system_mode
                   temp temp_low temp_high k) with
      | Ok _ => True
      | Raise e => is_SomeComfortError (kind_of e) = false
      end).
Proof.
  split; [|split].
  - intros mode. unfold async_set_hvac_mode.
    destruct (HA_MODE_TO_HONEYWELL mode) as [h|]; [|exact I].
    destruct (String.eqb h ""); [exact I|]. apply command_attempts_swallows.
  - intros fan. unfold async_set_fan_mode.
    destruct (honeywell_fan_of FAN_MODE_MAP fan) as [h|]; [|exact I].
    destruct (String.eqb h ""); [exact I|]. apply command_attempts_swallows.
  - intros temp temp_low temp_high. unfold async_set_temperature.
    apply command_attempts_swallows.
Qed.

(** One failed attempt of a command: the back-off, if another attempt is
    to come, and then the rest of the loop. *)
Lemma command_attempts_retry (async_request_refresh command : Co coordinator unit)
    (rest : nat) (attempt : Z) (k : coordinator) (e : exn) (k1 : coordinator) :
  (command ;; async_request_refresh) k = (Raise e, k1) ->
  is_SomeComfortError (kind_of e) = true ->
  command_attempts async_request_refresh command (S rest) attempt k
  = command_attempts async_request_refresh command rest (attempt + 1)
      (if attempt <? RETRY_ATTEMPTS - 1
       then set_client (record_sleep (2 ^ attempt) (client_of k1)) k1
       else k1).
Proof.
  intros E K. cbn [command_attempts].
  unfold bind at 1. unfold try_ at 1. rewrite E, K.
  unfold bind, on_client, sleep, modify, ret.
  destruct (attempt <? RETRY_ATTEMPTS - 1); reflexivity.
Qed.

(** X20.  A command whose three attempts all fail with a
    [SomeComfortError] sleeps one second after the first failure and two
    after the second, does not sleep after the third, and then returns as
    if nothing had happened; an attempt that succeeds ends the loop at
    once. *)
Theorem command_gives_up_after_three_attempts
    (async_request_refresh command : Co coordinator unit)
    (k : coordinator) :
  (forall e1 k1 e2 k2 e3 k3,
      (command ;; async_request_refresh) k = (Raise e1, k1) ->
      is_SomeComfortError (kind_of e1) = true ->
      (command ;; async_request_refresh)
        (set_client (record_sleep 1 (client_of k1)) k1) = (Raise e2, k2) ->
      is_SomeComfortError (kind_of e2) = true ->
      (command ;; async_request_refresh)
        (set_client (record_sleep 2 (client_of k2)) k2) = (Raise e3, k3) ->
      is_SomeComfortError (kind_of e3) = true ->
      command_attempts async_request_refresh command
        (Z.to_nat RETRY_ATTEMPTS) 0 k = (Ok tt, k3)) /\
  (forall u k1 rest attempt,
      (command ;; async_request_refresh) k = (Ok u, k1) ->
      command_attempts async_request_refresh command (S rest) attempt k
      = (Ok tt, k1)).
Proof.
  split.
  - intros e1 k1 e2 k2 e3 k3 E1 K1 E2 K2 E3 K3.
    change (Z.to_nat RETRY_ATTEMPTS) with 3%nat.
    rewrite (command_attempts_retry _ _ _ _ _ _ _ E1 K1).
    change (0 <? RETRY_ATTEMPTS - 1) with true. change (2 ^ 0) with 1.
    change (0 + 1) with 1.
    rewrite (command_attempts_retry _ _ _ _ _ _ _ E2 K2).
    change (1 <? RETRY_ATTEMPTS - 1) with true. change (2 ^ 1) with 2.
    change (1 + 1) with 2.
    rewrite (command_attempts_retry _ _ _ _ _ _ _ E3 K3).
    reflexivity.
  - intros u k1 rest attempt E. cbn [command_attempts].
    unfold bind at 1. unfold try_ at 1. rewrite E. reflexivity.
Qed.

Lemma command_gives_up_after_three_attempts_witness :
  let k := new_coordinator logged_in [thermostat] in
  let out := async_set_hvac_mode failing_command (ret tt) HVAC_HEAT k in
  fst out = Ok tt /\
  sleeps (client_of (snd out)) = [2; 1].
Proof.
  intros k out.
  assert (E : out = (Ok tt,
                     set_client (record_sleep 2 (record_sleep 1 logged_in)) k)).
  { apply (proj1 (command_gives_up_after_three_attempts
                    (ret tt) (failing_command "heat") k)
             (Exc ServiceUnavailable (MServiceUnavailable 503)) k
             (Exc ServiceUnavailable (MServiceUnavailable 503))
             (set_client (record_sleep 1 logged_in) k)
             (Exc ServiceUnavailable (MServiceUnavailable 503))
             (set_client (record_sleep 2 (record_sleep 1 logged_in)) k));
      reflexivity. }
  rewrite E. split; reflexivity.
Defined.

(** X21.  The mode tables agree: a mode the entity accepts is sent to the
    service under a name that the entity reads back as the same mode, and
    whatever mode the device reports, the entity shows one it can also
    set. *)
Theorem hvac_mode_round_trip :
  (forall mode honeywell_mode,
      HA_MODE_TO_HONEYWELL mode = Some honeywell_mode ->
      hvac_mode (Some honeywell_mode) = mode) /\
  (forall system_mode,
      HA_MODE_TO_HONEYWELL (hvac_mode system_mode) <> None).
Proof.
  split.
  - intros mode h. destruct mode; cbn; intros E; inversion E; reflexivity.
  - intros [sm|]; unfold hvac_mode; [|discriminate].
    cbn [assoc_get HVAC_MODE_MAP].
    repeat match goal with
           | |- context [String.eqb ?a sm] => destruct (String.eqb a sm)
           end; discriminate.
Qed.

Lemma hvac_mode_round_trip_witness : hvac_mode (Some "auto") = HVAC_HEAT_COOL.
Proof.
  apply (proj1 hvac_mode_round_trip HVAC_HEAT_COOL "auto"). reflexivity.
Defined.

(** X22.  The reverse lookup of [async_set_fan_mode] inverts
    [FAN_MODE_MAP]: a fan mode the entity accepts is sent under the name
    that the entity reads back as that fan mode, and a fan mode the
    entity shows is accepted back under the name the device reported. *)
Theorem fan_mode_round_trip :
  (forall fan honeywell_fan,
      honeywell_fan_of FAN_MODE_MAP fan = Some honeywell_fan ->
      fan_mode (Some honeywell_fan) = Some fan) /\
  (forall device_fan_mode fan,
      fan_mode (Some device_fan_mode) = Some fan ->
      honeywell_fan_of FAN_MODE_MAP fan = Some device_fan_mode).
Proof.
  split.
  - intros fan h. cbn [honeywell_fan_of FAN_MODE_MAP].
    destruct (String.eqb_spec FAN_AUTO fan) as [E|_];
      [subst fan; intros H; inversion H; reflexivity|].
    destruct (String.eqb_spec FAN_ON fan) as [E|_];
      [subst fan; intros H; inversion H; reflexivity|].
    destruct (String.eqb_spec FAN_DIFFUSE fan) as [E|_];
      [subst fan; intros H; inversion H; reflexivity|].
    discriminate.
  - intros hw fan. unfold fan_mode. cbn [assoc_get FAN_MODE_MAP].
    destruct (String.eqb_spec "auto" hw) as [E|_];
      [subst hw; intros H; inversion H; reflexivity|].
    destruct (String.eqb_spec "on" hw) as [E|_];
      [subst hw; intros H; inversion H; reflexivity|].
    destruct (String.eqb_spec "circulate" hw) as [E|_];
      [subst hw; intros H; inversion H; reflexivity|].
    discriminate.
Qed.

Lemma fan_mode_round_trip_witness : fan_mode (Some "circulate") = Some "diffuse".
Proof.
  apply (proj1 fan_mode_round_trip "diffuse" "circulate"). reflexivity.
Defined.

(** * A rejected login is not retried *)

(** X23.  When the client is not authenticated and the login at the head
    of the first attempt fails with anything but [ConnectionError]
    (rejected credentials, the cool-down, a timeout), the executor does
    not retry: the error of that login reaches the caller with the client
    as the login left it, no request sent and no sleep. *)
Theorem rejected_login_is_not_retried (net : nat -> outcome) (method : string)
    (retries : Z) (s : client) (e : exn) (s1 : client) :
  1 <= retries ->
  _is_authenticated s = false ->
  login net s = (Raise e, s1) ->
  kind_of e <> ConnectionError ->
  _request_json_with_retry net method (Some retries) s = (Raise e, s1) /\
  requests s1 = requests s /\
  sleeps s1 = sleeps s.
Proof.
  intros Hn A L K.
  pose proof (login_effects _ _ _ _ L) as [_ [R [Sl [Le _]]]].
  split; [|split; assumption].
  unfold _request_json_with_retry, bind at 1, get.
  destruct (Z.to_nat retries) as [|n] eqn:Hz; [lia|].
  cbn [retry_loop]. unfold bind at 1. unfold try_ at 1.
  unfold bind at 1. unfold ensure_authenticated at 1, bind at 1, get.
  rewrite A. cbn [negb]. rewrite L.
  destruct (kind_of e); try discriminate Le; try reflexivity.
  exfalso. apply K. reflexivity.
Qed.

Lemma rejected_login_is_not_retried_witness :
  let out := _request_json_with_retry (always (answer 401 None)) "get" (Some 3)
               fresh in
  fst out = Raise (Exc AuthError MLoginFailed) /\
  calls (snd out) = 1%nat /\
  requests (snd out) = 0%nat /\
  sleeps (snd out) = [].
Proof.
  intros out.
  destruct (rejected_login_is_not_retried
              (always (answer 401 None)) "get" 3 fresh
              (Exc AuthError MLoginFailed)
              (snd (login (always (answer 401 None)) fresh)))
    as [E [R Sl]].
  - lia.
  - reflexivity.
  - vm_compute. reflexivity.
  - discriminate.
  - subst out. rewrite E. cbn [fst snd].
    split; [reflexivity|]. split; [vm_compute; reflexivity|].
    split; [exact R | exact Sl].
Defined.
